(** * barkprotocol/build: transaction builder and confirmation poller

    A shallow embedding of the [Build] class, which exists twice in the
    repository: the TypeScript module [build.ts] (module [BuildTs] below)
    and its JavaScript predecessor [build.js] (module [BuildJs]).  Both
    expose [status], [ComputeLimit], [FeeEstimate] and [tx].

    Conventions of the embedding:
    - asynchronous functions become computations in a small monad that
      threads the world (the heap holding the caller's arrays and the log of
      network calls issued) and may throw;
    - the network is an explicit record of responders;
    - calls into [@solana/web3.js], [bs58] and [Buffer] are kept symbolic:
      a transaction is the record of what it was compiled from, and its
      serialized and encoded forms are constructors over it; what the
      library does with the arguments of a directive is not part of the
      model;
    - the ticks of [setInterval] run one after the other: a status query is
      answered before the next period begins;
    - compute units and the tolerance are binary64 numbers; fee estimates,
      which go through [parseInt], are integers or NaN; the counters of the
      poller are integers. *)

From Stdlib Require Import ZArith Bool List String Ascii Lia.
From Stdlib Require Import Decimal DecimalString DecimalPos.
From Stdlib Require Import Floats.PrimFloat Floats.SpecFloat Floats.FloatOps.
From Stdlib Require Import Numbers.Cyclic.Int63.Uint63.
From Stdlib Require Import Floats.FloatAxioms.
Import ListNotations.

Set Warnings "-inexact-float".
Local Open Scope Z_scope.
Local Open Scope string_scope.

(** ** JavaScript primitives used by the sources *)

Module Js.

(** Numbers that are integers or [NaN]: what [parseInt] produces.  (The
    integer is exact, JavaScript agrees with it up to 2^53 in magnitude;
    -0 is identified with 0.) *)
Inductive intnum : Type :=
| NaN
| Int (z : Z).

(** The values a JSON response field can hold, as far as [parseInt] tells
    them apart.  [JsNumber z] is an integer-valued number, meant for
    magnitudes up to 2^53, which binary64 holds exactly and [toString] prints
    digit by digit. *)
Inductive value : Type :=
| JsUndefined
| JsNull
| JsBoolean (b : bool)
| JsNumber (z : Z)
| JsString (s : string).

(** [Number.prototype.toString] on an integer: plain decimal digits. *)
Definition Number_toString (z : Z) : string :=
  NilZero.string_of_int (Z.to_int z).

(** Abstract operation [ToString]. *)
Definition ToString (v : value) : string :=
  match v with
  | JsUndefined => "undefined"
  | JsNull => "null"
  | JsBoolean true => "true"
  | JsBoolean false => "false"
  | JsNumber z => Number_toString z
  | JsString s => s
  end.

(** White space skipped by [parseInt] (the ASCII part of StrWhiteSpaceChar). *)
Definition is_white_space (a : ascii) : bool :=
  match a with
  | " "%char | "009"%char | "010"%char | "011"%char | "012"%char
  | "013"%char => true
  | _ => false
  end.

Fixpoint trim_start (s : string) : string :=
  match s with
  | String a s' => if is_white_space a then trim_start s' else s
  | EmptyString => s
  end.

(** The optional sign: [(negative, rest)]. *)
Definition strip_sign (s : string) : bool * string :=
  match s with
  | String "-"%char s' => (true, s')
  | String "+"%char s' => (false, s')
  | _ => (false, s)
  end.

(** The longest prefix of decimal digits. *)
Fixpoint decimal_prefix (s : string) : Decimal.uint :=
  match s with
  | String a s' =>
      match a with
      | "0"%char => D0 (decimal_prefix s')
      | "1"%char => D1 (decimal_prefix s')
      | "2"%char => D2 (decimal_prefix s')
      | "3"%char => D3 (decimal_prefix s')
      | "4"%char => D4 (decimal_prefix s')
      | "5"%char => D5 (decimal_prefix s')
      | "6"%char => D6 (decimal_prefix s')
      | "7"%char => D7 (decimal_prefix s')
      | "8"%char => D8 (decimal_prefix s')
      | "9"%char => D9 (decimal_prefix s')
      | _ => Decimal.Nil
      end
  | EmptyString => Decimal.Nil
  end.

(** The longest prefix of hexadecimal digits, in either case. *)
Fixpoint hexadecimal_prefix (s : string) : Hexadecimal.uint :=
  match s with
  | String a s' =>
      match a with
      | "0"%char => Hexadecimal.D0 (hexadecimal_prefix s')
      | "1"%char => Hexadecimal.D1 (hexadecimal_prefix s')
      | "2"%char => Hexadecimal.D2 (hexadecimal_prefix s')
      | "3"%char => Hexadecimal.D3 (hexadecimal_prefix s')
      | "4"%char => Hexadecimal.D4 (hexadecimal_prefix s')
      | "5"%char => Hexadecimal.D5 (hexadecimal_prefix s')
      | "6"%char => Hexadecimal.D6 (hexadecimal_prefix s')
      | "7"%char => Hexadecimal.D7 (hexadecimal_prefix s')
      | "8"%char => Hexadecimal.D8 (hexadecimal_prefix s')
      | "9"%char => Hexadecimal.D9 (hexadecimal_prefix s')
      | "a"%char | "A"%char => Hexadecimal.Da (hexadecimal_prefix s')
      | "b"%char | "B"%char => Hexadecimal.Db (hexadecimal_prefix s')
      | "c"%char | "C"%char => Hexadecimal.Dc (hexadecimal_prefix s')
      | "d"%char | "D"%char => Hexadecimal.Dd (hexadecimal_prefix s')
      | "e"%char | "E"%char => Hexadecimal.De (hexadecimal_prefix s')
      | "f"%char | "F"%char => Hexadecimal.Df (hexadecimal_prefix s')
      | _ => Hexadecimal.Nil
      end
  | EmptyString => Hexadecimal.Nil
  end.

Definition signed (negative : bool) (n : N) : intnum :=
  Int (if negative then - Z.of_N n else Z.of_N n).

(** Digits in radix 10: no digit at all is [NaN]. *)
Definition parse_decimal (negative : bool) (s : string) : intnum :=
  match decimal_prefix s with
  | Decimal.Nil => NaN
  | d => signed negative (N.of_uint d)
  end.

Definition parse_hexadecimal (negative : bool) (s : string) : intnum :=
  match hexadecimal_prefix s with
  | Hexadecimal.Nil => NaN
  | d => signed negative (N.of_hex_uint d)
  end.

(** [parseInt(v, 10)]. *)
Definition parseInt10 (v : value) : intnum :=
  let (negative, s) := strip_sign (trim_start (ToString v)) in
  parse_decimal negative s.

(** Without a radix a [0x] or [0X] prefix selects radix 16. *)
Definition parse_any_radix (negative : bool) (s : string) : intnum :=
  match s with
  | String "0"%char (String "x"%char s') => parse_hexadecimal negative s'
  | String "0"%char (String "X"%char s') => parse_hexadecimal negative s'
  | _ => parse_decimal negative s
  end.

(** [parseInt(v)]. *)
Definition parseInt (v : value) : intnum :=
  let (negative, s) := strip_sign (trim_start (ToString v)) in
  parse_any_radix negative s.

(** [Math.max(x, y)]: [NaN] as soon as one argument is. *)
Definition Math_max (x y : intnum) : intnum :=
  match x, y with
  | Int a, Int b => Int (Z.max a b)
  | _, _ => NaN
  end.

(** Integers below 2^53 as binary64 values. *)
Definition float_of_Z (z : Z) : float := PrimFloat.of_uint63 (Uint63.of_Z z).

(** [Math.ceil] on a binary64 value.  A finite value is [m * 2^e]; with
    [0 <= e] it is already an integer, otherwise its magnitude is below
    2^53.  Zeros, infinities and NaN are returned as they are, and a value
    in (-1, 0) gives -0. *)
Definition Math_ceil (x : float) : float :=
  match Prim2SF x with
  | S754_finite negative m e =>
      if (0 <=? e)%Z then x
      else
        let q := (Z.pos m / 2 ^ (- e))%Z in
        let r := (Z.pos m mod 2 ^ (- e))%Z in
        if negative then PrimFloat.opp (float_of_Z q)
        else float_of_Z (if (r =? 0)%Z then q else (q + 1)%Z)
  | _ => x
  end.

(** [ToNumber(undefined)] is NaN; a number is itself. *)
Definition ToNumber (x : option float) : float :=
  match x with
  | Some f => f
  | None => PrimFloat.nan
  end.

End Js.

(** ** Data model *)

Definition default {A : Type} (d : A) (o : option A) : A :=
  match o with
  | Some a => a
  | None => d
  end.

(** The only falsy string is the empty one. *)
Definition is_empty (s : string) : bool :=
  match s with
  | EmptyString => true
  | String _ _ => false
  end.

Definition Signer : Type := string.

(** Address lookup tables: a list, or the [false] that build.js defaults to. *)
Inductive Tables : Type :=
| NoTables
| TableList (t : list string).

(** What [ComputeLimit] returns: a number of units, or the object
    [{ message, logs }], whose [logs] may be [null]. *)
Inductive ComputeLimitResult : Type :=
| Units (n : float)
| SimulationError (message : string) (logs : option (list string)).

(** Instructions: those of the caller, and the two directives of
    [ComputeBudgetProgram].  [setComputeUnitLimit] is handed whatever
    [ComputeLimit] returned. *)
Inductive Instruction : Type :=
| Ix (programId data : string)
| SetComputeUnitLimit (units : ComputeLimitResult)
| SetComputeUnitPrice (microLamports : Js.intnum).

(** [new VersionedTransaction(new TransactionMessage({...})
    .compileToV0Message(tables))], and the signers it was signed by. *)
Record VersionedTransaction : Type := {
  payerKey : string;
  recentBlockhash : string;
  message_instructions : list Instruction;
  lookupTables : Tables;
  signatures : option (list Signer)
}.

Definition compile (payer blockhash : string) (ixs : list Instruction)
    (tables : Tables) : VersionedTransaction :=
  {| payerKey := payer; recentBlockhash := blockhash;
     message_instructions := ixs;
     lookupTables := tables; signatures := None |}.

(** [transaction.sign(signers)] where it returns.  The library refuses a
    key that is not a required signer of the message; that refusal is not
    modelled, and the statements about signing are about calls that
    return. *)
Definition sign (signers : list Signer) (t : VersionedTransaction)
    : VersionedTransaction :=
  {| payerKey := payerKey t; recentBlockhash := recentBlockhash t;
     message_instructions := message_instructions t;
     lookupTables := lookupTables t;
     signatures := Some signers |}.

(** Byte arrays and base64 texts, by what they were made from:
    [transaction.serialize()], [Buffer.from(text)] (the UTF-8 bytes of a
    string) and [buffer.toString("base64")]. *)
Inductive Uint8Array : Type :=
| Serialized (t : VersionedTransaction)
| Utf8 (text : Base64)
with Base64 : Type :=
| Base64Of (bytes : Uint8Array).

(** The three forms the built transaction is handed back in. *)
Inductive Payload : Type :=
| Structured (t : VersionedTransaction)
| Raw (bytes : Uint8Array)
| Encoded (text : Base64).

(** What [tx] resolves to: an object [{ message, logs?, transaction? }], or,
    in build.js, the bare bytes or the bare base64 text. *)
Inductive TxReturn : Type :=
| Obj (message : string) (logs : option (list string))
      (transaction : option Payload)
| BareBytes (bytes : Uint8Array)
| BareText (text : Base64).

Inductive Exn : Type :=
| TransportError (what : string)
| TypeError (what : string)
| Error (message : string).

Inductive Outcome (A : Type) : Type :=
| Returned (a : A)
| Thrown (e : Exn).
Arguments Returned {A} a.
Arguments Thrown {A} e.

(** ** The network *)

(** [simulateTransaction(...).value]. *)
Record SimulationValue : Type := {
  err : option string;
  logs : option (list string);
  unitsConsumed : option float
}.

(** The fee oracle's answer to [fetch] followed by [response.json()].
    [Body None]: the body has no [result] to read a property from;
    [Body (Some v)]: [data.result.priorityFeeEstimate] is [v]. *)
Inductive FetchReply : Type :=
| FetchRejects (e : Exn)
| JsonRejects (e : Exn)
| Body (priorityFeeEstimate : option Js.value).

Record Network : Type := {
  getLatestBlockhash : string -> Outcome string;
  simulateTransaction :
    string -> VersionedTransaction -> Outcome SimulationValue;
  fetch : string -> Uint8Array -> string -> FetchReply
}.

Inductive Call : Type :=
| GetLatestBlockhash (rpc : string)
| SimulateTransaction (rpc : string) (t : VersionedTransaction)
| GetPriorityFeeEstimate (url : string) (t : Uint8Array)
    (priorityLevel : string).

Definition is_fee_call (c : Call) : bool :=
  match c with
  | GetPriorityFeeEstimate _ _ _ => true
  | _ => false
  end.

(** ** The world and the monad of asynchronous computations *)

Definition ArrayRef : Type := nat.

Record World : Type := {
  heap : ArrayRef -> list Instruction;
  calls : list Call
}.

Definition Async (A : Type) : Type := World -> Outcome A * World.

Definition ret {A : Type} (a : A) : Async A := fun w => (Returned a, w).

Definition throw {A : Type} (e : Exn) : Async A := fun w => (Thrown e, w).

Definition bind {A B : Type} (m : Async A) (k : A -> Async B) : Async B :=
  fun w =>
    match m w with
    | (Returned a, w') => k a w'
    | (Thrown e, w') => (Thrown e, w')
    end.

Notation "x <- m ;; k" := (bind m (fun x => k))
  (at level 61, m at next level, right associativity).

Definition try_catch {A : Type} (m : Async A) (handler : Exn -> Async A)
    : Async A :=
  fun w =>
    match m w with
    | (Returned a, w') => (Returned a, w')
    | (Thrown e, w') => handler e w'
    end.

(** Issue a network call: it is logged, then answered. *)
Definition request {A : Type} (c : Call) (answer : Outcome A) : Async A :=
  fun w => (answer, {| heap := heap w; calls := calls w ++ [c] |}).

Definition read (r : ArrayRef) : Async (list Instruction) :=
  fun w => (Returned (heap w r), w).

(** [array.unshift(x)] on the array at [r]. *)
Definition unshift (r : ArrayRef) (x : Instruction) : Async unit :=
  fun w =>
    (Returned tt,
     {| heap := fun r' => if Nat.eqb r' r then x :: heap w r else heap w r';
        calls := calls w |}).

(** ** The confirmation poller's state *)

(** [txStatus.value[0]], when it is not [null]. *)
Record SignatureStatus : Type := {
  confirmationStatus : option string;
  status_err : option string
}.

Inductive StatusReply : Type :=
| StatusRejects (e : Exn)
| StatusValue (first : option SignatureStatus).

(** [txStatus?.value[0]?.confirmationStatus === "finalized"]. *)
Definition finalized (first : option SignatureStatus) : bool :=
  match first with
  | Some st =>
      match confirmationStatus st with
      | Some c => String.eqb c "finalized"
      | None => false
      end
  | None => false
  end.

(** [txStatus.value[0].err] is truthy: it is there, and it is not the
    empty string. *)
Definition has_err (first : option SignatureStatus) : bool :=
  match first with
  | Some st =>
      match status_err st with
      | Some e => negb (is_empty e)
      | None => false
      end
  | None => false
  end.

(** The state shared by the ticks of one [status] call: the counter
    [start], what the promise was resolved with, whether the interval is
    still armed, and how many status queries were issued. *)
Record Poll : Type := {
  start : Z;
  resolved : option string;
  armed : bool;
  queries : nat
}.

(** [resolve(v)]: only the first resolution of a promise counts. *)
Definition resolve (v : string) (p : Poll) : Poll :=
  {| start := start p;
     resolved := match resolved p with Some r => Some r | None => Some v end;
     armed := armed p; queries := queries p |}.

Definition clearInterval (p : Poll) : Poll :=
  {| start := start p; resolved := resolved p; armed := false;
     queries := queries p |}.

Definition increment (p : Poll) : Poll :=
  {| start := start p + 1; resolved := resolved p; armed := armed p;
     queries := queries p |}.

Definition query (p : Poll) : Poll :=
  {| start := start p; resolved := resolved p; armed := armed p;
     queries := S (queries p) |}.

(** The message of the timed-out result, for whole numbers [max] and [int]
    whose product binary64 holds exactly (at most [2^53] in size): there
    [`${max * int}`] prints the product digit by digit.  The statements
    about this message for a budget other than the default carry that
    bound. *)
Definition max_wait (max int : Z) : string :=
  Js.Number_toString (max * int) ++ " seconds max wait reached".

(** [setInterval] when every reply arrives within the period of its query:
    the callback runs once per period for as long as the interval is armed,
    each run to its end before the next; the [n]-th status query is answered
    by [replies n].  [periods] bounds how long the run is observed.  The
    timer itself does not wait for a reply: [run], below, is the poller
    under any timing, and it agrees with this one on the schedule [prompt]
    (lemma [run_prompt]). *)
Fixpoint setInterval (callback : StatusReply -> Poll -> Poll)
    (replies : nat -> StatusReply) (periods : nat) (p : Poll) : Poll :=
  match periods with
  | O => p
  | S periods' =>
      if armed p
      then setInterval callback replies periods'
             (callback (replies (queries p)) p)
      else p
  end.

Definition initial : Poll :=
  {| start := 1; resolved := None; armed := true; queries := 0 |}.

(** [setInterval] does not wait for the promise an [async] callback
    returns: a period can elapse while earlier status queries are still
    unanswered, and the callbacks then overlap.  What happens to a poll is a
    sequence of events: a period of the timer elapses, or the reply to the
    [n]-th status query arrives. *)
Inductive Event : Type :=
| Period
| Arrival (n : nat).

(** The poll, and the status queries still unanswered. *)
Record Loop : Type := {
  poll : Poll;
  outstanding : list nat
}.

Definition is_outstanding (n : nat) (waiting : list nat) : bool :=
  existsb (Nat.eqb n) waiting.

Fixpoint answer (n : nat) (waiting : list nat) : list nat :=
  match waiting with
  | [] => []
  | m :: waiting' =>
      if Nat.eqb n m then waiting' else m :: answer n waiting'
  end.

(** One event.  When a period elapses on an armed interval the callback
    starts and issues its status query, then waits at its [await]; a cleared
    interval fires no more.  When the reply to an unanswered query arrives,
    the callback that issued it resumes ([resume] is the callback from its
    [await] on), whether the interval has been cleared since or not. *)
Definition happen (resume : StatusReply -> Poll -> Poll)
    (replies : nat -> StatusReply) (l : Loop) (e : Event) : Loop :=
  match e with
  | Period =>
      if armed (poll l)
      then {| poll := query (poll l);
              outstanding := (outstanding l ++ [queries (poll l)])%list |}
      else l
  | Arrival n =>
      if is_outstanding n (outstanding l)
      then {| poll := resume (replies n) (poll l);
              outstanding := answer n (outstanding l) |}
      else l
  end.

Definition run (resume : StatusReply -> Poll -> Poll)
    (replies : nat -> StatusReply) (schedule : list Event) (l : Loop)
    : Loop :=
  fold_left (happen resume replies) schedule l.

Definition idle : Loop := {| poll := initial; outstanding := [] |}.

(** How many replies the callbacks have been resumed with. *)
Definition answered (l : Loop) : nat :=
  (queries (poll l) - List.length (outstanding l))%nat.

(** The schedule on which every reply arrives within the period of its
    query, for [periods] periods from the query numbered [from]. *)
Definition prompt (from periods : nat) : list Event :=
  flat_map (fun n => [Period; Arrival n]) (seq from periods).

(** A schedule on which every reply arrives one period late: the timer
    fires again before the reply to the previous query is in. *)
Definition late (periods : nat) : list Event :=
  Period :: flat_map (fun n => [Period; Arrival n]) (seq 0 periods).

(** ** build.ts *)

Module BuildTs.

Record TxOptions : Type := {
  rpc : option string;
  account : option string;
  instructions : option ArrayRef;
  signers : option (list Signer);
  priority : option string;
  tolerance : option float;
  serialize : option bool;
  encode : option bool;
  table : option (list string);
  compute : option bool;
  fees : option bool
}.

(** The callback handed to [setInterval] by [status]. *)
Definition tick (max int : Z) (reply : StatusReply) (p : Poll) : Poll :=
  let p := query p in
  match reply with
  | StatusValue first =>
      let p :=
        if finalized first
        then if has_err first
             then clearInterval (resolve "Program error!" p)
             else clearInterval (resolve "Finalized" p)
        else p in
      let p := increment p in
      if start p >? max
      then clearInterval (resolve (max_wait max int) p)
      else p
  | StatusRejects _ =>
      clearInterval (resolve "Error checking status" p)
  end.

Definition status (replies : nat -> StatusReply) (max int : option Z)
    (periods : nat) : Poll :=
  let max := default 10 max in
  let int := default 4 int in
  setInterval (tick max int) replies periods initial.

(** The same callback from its [await] on: what runs when the reply is
    in. *)
Definition resume (max int : Z) (reply : StatusReply) (p : Poll) : Poll :=
  match reply with
  | StatusValue first =>
      let p :=
        if finalized first
        then if has_err first
             then clearInterval (resolve "Program error!" p)
             else clearInterval (resolve "Finalized" p)
        else p in
      let p := increment p in
      if start p >? max
      then clearInterval (resolve (max_wait max int) p)
      else p
  | StatusRejects _ =>
      clearInterval (resolve "Error checking status" p)
  end.

(** [status] under any timing of periods and replies. *)
Definition status_on (replies : nat -> StatusReply) (max int : option Z)
    (schedule : list Event) : Loop :=
  let max := default 10 max in
  let int := default 4 int in
  run (resume max int) replies schedule idle.

Definition ComputeLimit (net : Network) (cluster payer : string)
    (instructions : list Instruction) (tolerance : float)
    (blockhash : string) (tables : Tables) : Async ComputeLimitResult :=
  let computeUnitLimitInstruction :=
    SetComputeUnitLimit (Units 1400000) in
  let txInstructions := computeUnitLimitInstruction :: instructions in
  let transaction := compile payer blockhash txInstructions tables in
  simulationResult <-
    request (SimulateTransaction cluster transaction)
            (simulateTransaction net cluster transaction) ;;
  match err simulationResult with
  | Some _ =>
      ret (SimulationError "Error during simulation" (logs simulationResult))
  | None =>
      let consumedUnits := Js.ToNumber (unitsConsumed simulationResult) in
      let optimizedComputeUnits :=
        Js.Math_ceil (PrimFloat.mul consumedUnits tolerance) in
      ret (Units optimizedComputeUnits)
  end.

Definition FeeEstimate (net : Network) (cluster payer priorityLevel : string)
    (instructions : list Instruction) (blockhash : string) (tables : Tables)
    : Async Js.intnum :=
  let transaction := compile payer blockhash instructions tables in
  let serializedTransaction := Serialized transaction in
  let url := cluster ++ "/" in
  try_catch
    (data <-
       request (GetPriorityFeeEstimate url serializedTransaction priorityLevel)
         (match fetch net url serializedTransaction priorityLevel with
          | FetchRejects e => Thrown e
          | JsonRejects e => Thrown e
          | Body data => Returned data
          end) ;;
     match data with
     | None => throw (TypeError "data.result is undefined")
     | Some priorityFeeEstimate =>
         let feeEstimate := Js.parseInt10 priorityFeeEstimate in
         ret (Js.Math_max feeEstimate (Js.Int 10000))
     end)
    (fun _ => throw (Error "Failed to estimate fee")).

(** [Buffer.from(x)]: bytes are copied and a string gives its UTF-8 bytes;
    a [VersionedTransaction] is neither a string, a buffer nor array-like,
    and [Buffer.from] rejects it with a [TypeError]. *)
Definition Buffer_from (x : Payload) : Outcome Uint8Array :=
  match x with
  | Raw bytes => Returned bytes
  | Encoded text => Returned (Utf8 text)
  | Structured _ => Thrown (TypeError "Buffer.from: unsupported argument")
  end.

Definition tx (net : Network) (options : TxOptions) : Async TxReturn :=
  let signers := signers options in
  let priority := default "Medium" (priority options) in
  let tolerance := default 1.1%float (tolerance options) in
  let serialize := default false (serialize options) in
  let encode := default false (encode options) in
  let table := TableList (default [] (table options)) in
  let compute := default true (compute options) in
  let fees := default true (fees options) in
  match rpc options, account options, instructions options with
  | Some rpc, Some account, Some instructions =>
      if is_empty rpc || is_empty account
      then ret (Obj "Missing required parameters" None None)
      else
        (* [new PublicKey(account)]: the key is kept as its text.  The
           library throws here for a text that is not a key, and in
           [setComputeUnitLimit] and [setComputeUnitPrice] for a value out
           of their range; those throws are not modelled: a call that
           returns in the source returns the same here *)
        let payerPublicKey := account in
        blockhash <-
          request (GetLatestBlockhash rpc) (getLatestBlockhash net rpc) ;;
        let payer := payerPublicKey in
        txInstructions <- read instructions ;;
        optimized <-
          (if compute
           then
             computeLimit <-
               ComputeLimit net rpc payer txInstructions tolerance blockhash
                 table ;;
             match computeLimit with
             | SimulationError message (Some logs) =>
                 ret (inl (Obj message (Some logs) None))
             | _ => ret (inr (SetComputeUnitLimit computeLimit :: txInstructions))
             end
           else ret (inr txInstructions)) ;;
        match optimized with
        | inl failure => ret failure
        | inr txInstructions =>
            txInstructions <-
              (if fees
               then
                 feeEstimate <-
                   FeeEstimate net rpc payer priority txInstructions blockhash
                     table ;;
                 ret (SetComputeUnitPrice feeEstimate :: txInstructions)
               else ret txInstructions) ;;
            let transaction :=
              compile payerPublicKey blockhash txInstructions table in
            let transaction :=
              match signers with
              | Some signers => sign signers transaction
              | None => transaction
              end in
            let resultTransaction := Structured transaction in
            let resultTransaction :=
              if serialize
              then Raw (Serialized transaction)
              else resultTransaction in
            resultTransaction <-
              (if encode
               then
                 match Buffer_from resultTransaction with
                 | Returned bytes => ret (Encoded (Base64Of bytes))
                 | Thrown e => throw e
                 end
               else ret resultTransaction) ;;
            ret (Obj (if serialize || encode
                      then "Success"
                      else "Transaction built successfully")
                     None (Some resultTransaction))
        end
  | _, _, _ => ret (Obj "Missing required parameters" None None)
  end.

End BuildTs.

(** ** build.js *)

Module BuildJs.

Record TxData : Type := {
  rpc : option string;
  account : option string;
  instructions : option ArrayRef;
  signers : option (list Signer);
  priority : option string;
  tolerance : option float;
  serialize : option bool;
  encode : option bool;
  tables : option (list string);
  compute : option bool;
  fees : option bool
}.

(** The callback handed to [setInterval] by [status].  Nothing catches a
    rejected status query: the callback stops there, and neither [resolve],
    [clearInterval] nor [start++] runs. *)
Definition tick (max int : Z) (reply : StatusReply) (p : Poll) : Poll :=
  let p := query p in
  match reply with
  | StatusValue first =>
      let p :=
        if finalized first
        then if has_err first
             then clearInterval (resolve "program error!" p)
             else clearInterval (resolve "finalized" p)
        else if start p >=? max
             then clearInterval (resolve (max_wait max int) p)
             else p in
      increment p
  | StatusRejects _ => p
  end.

Definition status (replies : nat -> StatusReply) (max int : option Z)
    (periods : nat) : Poll :=
  let max := default 10 max in
  let int := default 4 int in
  setInterval (tick max int) replies periods initial.

(** The same callback from its [await] on: what runs when the reply is in.
    A rejected query ends the callback at the [await]. *)
Definition resume (max int : Z) (reply : StatusReply) (p : Poll) : Poll :=
  match reply with
  | StatusValue first =>
      let p :=
        if finalized first
        then if has_err first
             then clearInterval (resolve "program error!" p)
             else clearInterval (resolve "finalized" p)
        else if start p >=? max
             then clearInterval (resolve (max_wait max int) p)
             else p in
      increment p
  | StatusRejects _ => p
  end.

(** [status] under any timing of periods and replies. *)
Definition status_on (replies : nat -> StatusReply) (max int : option Z)
    (schedule : list Event) : Loop :=
  let max := default 10 max in
  let int := default 4 int in
  run (resume max int) replies schedule idle.

Definition ComputeLimit (net : Network) (cluster optiPayer : string)
    (optiIx : list Instruction) (optiTolerance : float)
    (blockhash : string) (optiTables : Tables) : Async ComputeLimitResult :=
  let optiSimLimit := SetComputeUnitLimit (Units 1400000) in
  let instructions := optiSimLimit :: optiIx in
  let optiTx := compile optiPayer blockhash instructions optiTables in
  optiCuRes <-
    request (SimulateTransaction cluster optiTx)
            (simulateTransaction net cluster optiTx) ;;
  match err optiCuRes with
  | Some _ => ret (SimulationError "error during simulation" (logs optiCuRes))
  | None =>
      let optiConsumed := Js.ToNumber (unitsConsumed optiCuRes) in
      let optiCuLimit :=
        Js.Math_ceil (PrimFloat.mul optiConsumed optiTolerance) in
      ret (Units optiCuLimit)
  end.

Definition FeeEstimate (net : Network) (cluster payer priorityLevel : string)
    (instructions : list Instruction) (blockhash : string) (tables : Tables)
    : Async Js.intnum :=
  let tx := compile payer blockhash instructions tables in
  data <-
    request (GetPriorityFeeEstimate cluster (Serialized tx) priorityLevel)
      (match fetch net cluster (Serialized tx) priorityLevel with
       | FetchRejects e => Thrown e
       | JsonRejects e => Thrown e
       | Body data => Returned data
       end) ;;
  match data with
  | None => throw (TypeError "data.result is undefined")
  | Some priorityFeeEstimate =>
      let estimatedFee := Js.parseInt priorityFeeEstimate in
      ret (Js.Math_max estimatedFee (Js.Int 10000))
  end.

(** The default tolerance is the string ["1.1"], which the product in
    [ComputeLimit] converts to the number 1.1.  [ComputeLimit] never returns
    [null], so the branch for it in the source is not represented.  As in
    build.ts, [new PublicKey(_account_)] keeps the key as its text and the
    library's throws on a text that is not a key, or on a budget or price
    out of range, are not modelled: a call that returns in the source
    returns the same here. *)
Definition tx (net : Network) (_data_ : TxData) : Async TxReturn :=
  let _signers_ := signers _data_ in
  let _priority_ := default "Medium" (priority _data_) in
  let _tolerance_ := default 1.1%float (tolerance _data_) in
  let _serialize_ := default false (serialize _data_) in
  let _encode_ := default false (encode _data_) in
  let _table_ :=
    match tables _data_ with
    | Some t => TableList t
    | None => NoTables
    end in
  let _compute_ := default true (compute _data_) in
  let _fees_ := default true (fees _data_) in
  match rpc _data_ with
  | None | Some EmptyString => ret (Obj "missing rpc" None None)
  | Some _rpc_ =>
  match account _data_ with
  | None | Some EmptyString => ret (Obj "missing account" None None)
  | Some _account_ =>
  match instructions _data_ with
  | None => ret (Obj "missing instructions" None None)
  | Some _instructions_ =>
      let wallet := _account_ in
      blockhash <-
        request (GetLatestBlockhash _rpc_) (getLatestBlockhash net _rpc_) ;;
      let _priority_ :=
        if String.eqb _priority_ "Extreme" then "VeryHigh" else _priority_ in
      let payer := wallet in
      failure <-
        (if _compute_
         then
           ixs <- read _instructions_ ;;
           computeLimit <-
             ComputeLimit net _rpc_ payer ixs _tolerance_ blockhash _table_ ;;
           match computeLimit with
           | SimulationError _ (Some logs) =>
               ret (Some (Obj "error when simulating the transaction"
                              (Some logs) None))
           | _ =>
               _ <- unshift _instructions_ (SetComputeUnitLimit computeLimit) ;;
               ret None
           end
         else ret None) ;;
      match failure with
      | Some failure => ret failure
      | None =>
          _ <-
            (if _fees_
             then
               ixs <- read _instructions_ ;;
               priorityFee <-
                 FeeEstimate net _rpc_ payer _priority_ ixs blockhash _table_ ;;
               unshift _instructions_ (SetComputeUnitPrice priorityFee)
             else ret tt) ;;
          ixs <- read _instructions_ ;;
          let tx := compile wallet blockhash ixs _table_ in
          let tx :=
            match _signers_ with
            | Some signers => sign signers tx
            | None => tx
            end in
          if _serialize_
          then
            let serializedTx := Serialized tx in
            ret (if _encode_
                 then BareText (Base64Of serializedTx)
                 else BareBytes serializedTx)
          else ret (Obj "success" None (Some (Structured tx)))
      end
  end end end.

End BuildJs.

(** ** Vocabulary of the statements *)

(** A status reply that leaves the poll pending: the query succeeded and
    did not report ["finalized"]. *)
Definition pending (r : StatusReply) : bool :=
  match r with
  | StatusValue first => negb (finalized first)
  | StatusRejects _ => false
  end.

(** The poll state [k] pending ticks later. *)
Definition advanced (k : nat) (p : Poll) : Poll :=
  {| start := start p + Z.of_nat k; resolved := resolved p; armed := armed p;
     queries := (queries p + k)%nat |}.


(** A world in which no call has been issued yet. *)
Definition fresh (h : ArrayRef -> list Instruction) : World :=
  {| heap := h; calls := [] |}.

(** A computation that leaves the heap alone and only appends to the log,
    and whose result and calls depend on the heap only. *)
Definition read_only {A : Type} (m : Async A) : Prop :=
  forall w,
    m w = (fst (m (fresh (heap w))),
           {| heap := heap w;
              calls := calls w ++ calls (snd (m (fresh (heap w)))) |}).

(** The transaction inside a success result, whatever its form. *)
Definition built (r : TxReturn) : option VersionedTransaction :=
  match r with
  | Obj _ _ (Some (Structured t)) => Some t
  | Obj _ _ (Some (Raw (Serialized t))) => Some t
  | Obj _ _ (Some (Encoded (Base64Of (Serialized t)))) => Some t
  | BareBytes (Serialized t) => Some t
  | BareText (Base64Of (Serialized t)) => Some t
  | _ => None
  end.

(** The final instruction sequence of a result, and of an outcome. *)
Definition final_sequence (r : TxReturn) : option (list Instruction) :=
  option_map message_instructions (built r).

Definition outcome_sequence (o : Outcome TxReturn)
    : option (list Instruction) :=
  match o with
  | Returned r => final_sequence r
  | Thrown _ => None
  end.

(** A request that passes the validation at the head of [tx]. *)
Definition ts_valid (o : BuildTs.TxOptions) : bool :=
  match BuildTs.rpc o, BuildTs.account o, BuildTs.instructions o with
  | Some rpc, Some account, Some _ =>
      negb (is_empty rpc) && negb (is_empty account)
  | _, _, _ => false
  end.

Definition js_valid (d : BuildJs.TxData) : bool :=
  match BuildJs.rpc d, BuildJs.account d, BuildJs.instructions d with
  | Some rpc, Some account, Some _ =>
      negb (is_empty rpc) && negb (is_empty account)
  | _, _, _ => false
  end.

Definition is_budget_directive (i : Instruction) : bool :=
  match i with
  | SetComputeUnitLimit _ => true
  | _ => false
  end.

(** The fee-oracle calls of a log. *)
Definition fee_calls (w : World) : list Call := filter is_fee_call (calls w).

(** The same request with other [serialize] and [encode] toggles. *)
Definition ts_with_output (s e : bool) (o : BuildTs.TxOptions)
    : BuildTs.TxOptions :=
  {| BuildTs.rpc := BuildTs.rpc o; BuildTs.account := BuildTs.account o;
     BuildTs.instructions := BuildTs.instructions o;
     BuildTs.signers := BuildTs.signers o;
     BuildTs.priority := BuildTs.priority o;
     BuildTs.tolerance := BuildTs.tolerance o;
     BuildTs.serialize := Some s; BuildTs.encode := Some e;
     BuildTs.table := BuildTs.table o; BuildTs.compute := BuildTs.compute o;
     BuildTs.fees := BuildTs.fees o |}.

Definition js_with_output (s e : bool) (d : BuildJs.TxData)
    : BuildJs.TxData :=
  {| BuildJs.rpc := BuildJs.rpc d; BuildJs.account := BuildJs.account d;
     BuildJs.instructions := BuildJs.instructions d;
     BuildJs.signers := BuildJs.signers d;
     BuildJs.priority := BuildJs.priority d;
     BuildJs.tolerance := BuildJs.tolerance d;
     BuildJs.serialize := Some s; BuildJs.encode := Some e;
     BuildJs.tables := BuildJs.tables d; BuildJs.compute := BuildJs.compute d;
     BuildJs.fees := BuildJs.fees d |}.

(** ** Concrete inputs *)

Module Sample.

Definition transfer : Instruction :=
  Ix "11111111111111111111111111111111" "transfer".

(** The caller's array lives at reference 0 and holds one instruction. *)
Definition world : World :=
  {| heap := fun r => if Nat.eqb r 0 then [transfer] else []; calls := [] |}.

Definition endpoint : string := "https://api.mainnet-beta.solana.com".
Definition payer : string := "7EcDhSYGxXyscszYEp35KHN8vvw3svAuLKTzXwCFLtV".
Definition blockhash : string := "9sHcv6xwn9YkB8nxTUGKDwPwNnmqVp5oAXxU8Fdkm4J6".

(** A network that answers every simulation with [sv] and every fee query
    with a body whose [result.priorityFeeEstimate] is [estimate]. *)
Definition network (sv : SimulationValue) (estimate : Js.value) : Network :=
  {| getLatestBlockhash := fun _ => Returned blockhash;
     simulateTransaction := fun _ _ => Returned sv;
     fetch := fun _ _ _ => Body (Some estimate) |}.

Definition consumed (units : float) : SimulationValue :=
  {| err := None; logs := Some []; unitsConsumed := Some units |}.

Definition failed (l : option (list string)) : SimulationValue :=
  {| err := Some "InstructionError"; logs := l; unitsConsumed := None |}.

(** [{ rpc, account, instructions }], everything else left to its default. *)
Definition options : BuildTs.TxOptions :=
  {| BuildTs.rpc := Some endpoint;
     BuildTs.account := Some payer;
     BuildTs.instructions := Some 0%nat;
     BuildTs.signers := None; BuildTs.priority := None;
     BuildTs.tolerance := None; BuildTs.serialize := None;
     BuildTs.encode := None; BuildTs.table := None;
     BuildTs.compute := None; BuildTs.fees := None |}.

Definition data : BuildJs.TxData :=
  {| BuildJs.rpc := Some endpoint;
     BuildJs.account := Some payer;
     BuildJs.instructions := Some 0%nat;
     BuildJs.signers := None; BuildJs.priority := None;
     BuildJs.tolerance := None; BuildJs.serialize := None;
     BuildJs.encode := None; BuildJs.tables := None;
     BuildJs.compute := None; BuildJs.fees := None |}.

(** The simulation consumes 100 units and the oracle estimates 5000
    micro-lamports: the budget is ceil(100 * 1.1) = 111 in binary64, the
    price is the floor. *)
Definition quiet : Network := network (consumed 100) (Js.JsNumber 5000).

Definition optimized : list Instruction :=
  [SetComputeUnitPrice (Js.Int 10000); SetComputeUnitLimit (Units 111);
   transfer].

Definition budgeted : list Instruction :=
  [SetComputeUnitLimit (Units 111); transfer].

Definition ts_transaction : VersionedTransaction :=
  compile payer blockhash optimized (TableList []).

Definition js_transaction : VersionedTransaction :=
  compile payer blockhash optimized NoTables.

(** The simulation fails before anything ran: an error and no logs. *)
Definition rejecting : Network := network (failed None) (Js.JsNumber 5000).

(** The simulation fails with two log lines. *)
Definition failing : Network :=
  network (failed (Some ["log A"; "log B"])) (Js.JsNumber 5000).

(** The oracle's body carries a [result] without [priorityFeeEstimate]. *)
Definition silent : Network := network (consumed 100) Js.JsUndefined.


Definition unreachable : nat -> StatusReply :=
  fun _ => StatusRejects (TransportError "fetch failed").

End Sample.

(** ** Vocabulary of the further properties *)


(** The promise of the poll has been resolved. *)
Definition settled (p : Poll) : bool :=
  match resolved p with
  | Some _ => true
  | None => false
  end.

(** [!x] on an optional string. *)
Definition falsy (o : option string) : bool :=
  match o with
  | Some s => is_empty s
  | None => true
  end.

Definition is_simulation (c : Call) : bool :=
  match c with
  | SimulateTransaction _ _ => true
  | _ => false
  end.

(** A fee-oracle call that asks for the level ["Extreme"]. *)
Definition asks_extreme (c : Call) : bool :=
  match c with
  | GetPriorityFeeEstimate _ _ level => String.eqb level "Extreme"
  | _ => false
  end.



(** Text made of an integer, a dot and anything after it. *)
Definition with_fraction (z : Z) (rest : string) : string :=
  Js.Number_toString z ++ String "."%char rest.


(** ** Further concrete inputs *)

Module Scenario.




Definition down : Exn := TransportError "fetch failed".





(** The fee oracle cannot be reached. *)
Definition oracle_down : Network :=
  {| getLatestBlockhash := fun _ => Returned Sample.blockhash;
     simulateTransaction := fun _ _ => Returned (Sample.consumed 100);
     fetch := fun _ _ _ => FetchRejects down |}.

(** A successful simulation that reports no [unitsConsumed]. *)
Definition unmetered : SimulationValue :=
  {| err := None; logs := Some []; unitsConsumed := None |}.

(** The oracle answers with text that has a fractional part. *)
Definition fractional : Network :=
  Sample.network (Sample.consumed 100) (Js.JsString "12345.678").

Definition plain_transaction : VersionedTransaction :=
  compile Sample.payer Sample.blockhash [Sample.transfer] (TableList []).

(** Both optimizations switched off. *)
Definition ts_plain : BuildTs.TxOptions :=
  {| BuildTs.rpc := Some Sample.endpoint;
     BuildTs.account := Some Sample.payer;
     BuildTs.instructions := Some 0%nat;
     BuildTs.signers := None; BuildTs.priority := None;
     BuildTs.tolerance := None; BuildTs.serialize := None;
     BuildTs.encode := None; BuildTs.table := None;
     BuildTs.compute := Some false; BuildTs.fees := Some false |}.

Definition js_plain : BuildJs.TxData :=
  {| BuildJs.rpc := Some Sample.endpoint;
     BuildJs.account := Some Sample.payer;
     BuildJs.instructions := Some 0%nat;
     BuildJs.signers := None; BuildJs.priority := None;
     BuildJs.tolerance := None; BuildJs.serialize := None;
     BuildJs.encode := None; BuildJs.tables := None;
     BuildJs.compute := Some false; BuildJs.fees := Some false |}.

(** A request without [rpc]; one with [rpc] and without [account]. *)
Definition ts_no_rpc : BuildTs.TxOptions :=
  {| BuildTs.rpc := None;
     BuildTs.account := Some Sample.payer;
     BuildTs.instructions := Some 0%nat;
     BuildTs.signers := None; BuildTs.priority := None;
     BuildTs.tolerance := None; BuildTs.serialize := None;
     BuildTs.encode := None; BuildTs.table := None;
     BuildTs.compute := None; BuildTs.fees := None |}.

Definition js_no_account : BuildJs.TxData :=
  {| BuildJs.rpc := Some Sample.endpoint;
     BuildJs.account := Some EmptyString;
     BuildJs.instructions := None;
     BuildJs.signers := None; BuildJs.priority := None;
     BuildJs.tolerance := None; BuildJs.serialize := None;
     BuildJs.encode := None; BuildJs.tables := None;
     BuildJs.compute := None; BuildJs.fees := None |}.

(** The level ["Extreme"] is asked for. *)
Definition js_extreme : BuildJs.TxData :=
  {| BuildJs.rpc := Some Sample.endpoint;
     BuildJs.account := Some Sample.payer;
     BuildJs.instructions := Some 0%nat;
     BuildJs.signers := None; BuildJs.priority := Some "Extreme";
     BuildJs.tolerance := None; BuildJs.serialize := None;
     BuildJs.encode := None; BuildJs.tables := None;
     BuildJs.compute := None; BuildJs.fees := None |}.


End Scenario.

(** * Properties *)

(** ** [parseInt] reads back what [toString] prints *)

Example parseInt10_prefix : Js.parseInt10 (Js.JsString "  -12ab") = Js.Int (-12).
Proof. reflexivity. Qed.

Example parseInt_radix16 : Js.parseInt (Js.JsString "0x1F") = Js.Int 31.
Proof. reflexivity. Qed.

Example parseInt10_radix16 : Js.parseInt10 (Js.JsString "0x1F") = Js.Int 0.
Proof. reflexivity. Qed.

Example parseInt10_undefined : Js.parseInt10 Js.JsUndefined = Js.NaN.
Proof. reflexivity. Qed.

Example Math_ceil_product :
  Js.Math_ceil (PrimFloat.mul 100 1.1) = 111%float /\
  Js.Math_ceil (PrimFloat.mul 10 1.1) = 11%float /\
  Js.Math_ceil (PrimFloat.mul (Js.ToNumber None) 1.1) = PrimFloat.nan.
Proof. vm_compute. repeat split. Qed.

Lemma decimal_prefix_digits (d : Decimal.uint) :
  Js.decimal_prefix (NilEmpty.string_of_uint d) = d.
Proof. induction d; simpl; congruence. Qed.

Lemma trim_start_digits (d : Decimal.uint) :
  Js.trim_start (NilEmpty.string_of_uint d) = NilEmpty.string_of_uint d.
Proof. destruct d; reflexivity. Qed.

Lemma strip_sign_digits (d : Decimal.uint) :
  Js.strip_sign (NilEmpty.string_of_uint d) =
  (false, NilEmpty.string_of_uint d).
Proof. destruct d; reflexivity. Qed.

Lemma parse_any_radix_digits (negative : bool) (d : Decimal.uint) :
  Js.parse_any_radix negative (NilEmpty.string_of_uint d) =
  Js.parse_decimal negative (NilEmpty.string_of_uint d).
Proof.
  destruct d as [|d|d|d|d|d|d|d|d|d|d]; try reflexivity.
  destruct d; reflexivity.
Qed.

Lemma string_of_positive (p : positive) :
  NilZero.string_of_uint (Pos.to_uint p) =
  NilEmpty.string_of_uint (Pos.to_uint p).
Proof.
  pose proof (Unsigned.to_uint_nonnil p) as Hnil.
  unfold NilZero.string_of_uint. destruct (Pos.to_uint p); congruence.
Qed.

Lemma parse_decimal_positive (negative : bool) (p : positive) :
  Js.parse_decimal negative (NilEmpty.string_of_uint (Pos.to_uint p)) =
  Js.signed negative (N.pos p).
Proof.
  unfold Js.parse_decimal. rewrite decimal_prefix_digits.
  pose proof (Unsigned.to_uint_nonnil p) as Hnil.
  pose proof (Unsigned.of_to p) as Hof.
  destruct (Pos.to_uint p); try congruence;
    unfold N.of_uint; rewrite Hof; reflexivity.
Qed.

Lemma parseInt10_number (z : Z) : Js.parseInt10 (Js.JsNumber z) = Js.Int z.
Proof.
  unfold Js.parseInt10, Js.ToString, Js.Number_toString.
  destruct z as [|p|p]; [reflexivity| |];
    simpl Z.to_int; unfold NilZero.string_of_int; rewrite string_of_positive.
  - rewrite trim_start_digits, strip_sign_digits.
    apply parse_decimal_positive.
  - simpl. apply parse_decimal_positive.
Qed.

Lemma parseInt_number (z : Z) : Js.parseInt (Js.JsNumber z) = Js.Int z.
Proof.
  unfold Js.parseInt, Js.ToString, Js.Number_toString.
  destruct z as [|p|p]; [reflexivity| |];
    simpl Z.to_int; unfold NilZero.string_of_int; rewrite string_of_positive.
  - rewrite trim_start_digits, strip_sign_digits, parse_any_radix_digits.
    apply parse_decimal_positive.
  - simpl Js.trim_start. simpl Js.strip_sign. cbv iota.
    rewrite parse_any_radix_digits. apply parse_decimal_positive.
Qed.

(** ** The confirmation poller *)

Section Poller.

Variable replies : nat -> StatusReply.
Variables max int : Z.

Lemma setInterval_disarmed callback periods p :
  armed p = false -> setInterval callback replies periods p = p.
Proof. intros H. destruct periods; simpl; [|rewrite H]; reflexivity. Qed.

Lemma setInterval_step callback periods p :
  armed p = true ->
  setInterval callback replies (S periods) p =
  setInterval callback replies periods (callback (replies (queries p)) p).
Proof. intros H. simpl. rewrite H. reflexivity. Qed.

Ltac pending_reply H :=
  match type of H with
  | pending ?r = true =>
      destruct r as [?|first]; simpl in H; [discriminate H|];
      apply negb_true_iff in H; rewrite H
  end.

Lemma ts_tick_pending p :
  pending (replies (queries p)) = true ->
  start p + 1 <= max ->
  BuildTs.tick max int (replies (queries p)) p = increment (query p).
Proof.
  intros Hp Hle. unfold BuildTs.tick. pending_reply Hp.
  cbn [increment query start].
  destruct (Z.gtb_spec (start p + 1) max); [lia|reflexivity].
Qed.




Lemma advanced_succ k p : advanced k (increment (query p)) = advanced (S k) p.
Proof. destruct p; unfold advanced; simpl. f_equal; lia. Qed.

Lemma ts_pending_ticks k : forall periods p,
  armed p = true ->
  (forall i, (queries p <= i < queries p + k)%nat ->
             pending (replies i) = true) ->
  start p + Z.of_nat k <= max ->
  setInterval (BuildTs.tick max int) replies (k + periods) p =
  setInterval (BuildTs.tick max int) replies periods (advanced k p).
Proof.
  induction k as [|k IH]; intros periods p Harmed Hp Hle.
  - destruct p; unfold advanced; simpl.
    rewrite Z.add_0_r, Nat.add_0_r. reflexivity.
  - change (S k + periods)%nat with (S (k + periods)).
    rewrite setInterval_step by assumption.
    rewrite ts_tick_pending by (try apply Hp; lia).
    rewrite IH; [rewrite advanced_succ; reflexivity|assumption| |simpl; lia].
    intros i Hi. apply Hp. simpl in Hi. lia.
Qed.





(** build.ts: the first rejected query ends the poll with the error
    result. *)
Lemma ts_stops_on_rejection n e periods :
  (forall i, (i < n)%nat -> pending (replies i) = true) ->
  replies n = StatusRejects e ->
  Z.of_nat n < max -> (n < periods)%nat ->
  setInterval (BuildTs.tick max int) replies periods initial =
  {| start := 1 + Z.of_nat n; resolved := Some "Error checking status";
     armed := false; queries := S n |}.
Proof.
  intros Hp Hrej Hmax Hper.
  replace periods with (n + S (periods - S n))%nat by lia.
  rewrite ts_pending_ticks;
    [|reflexivity|intros i Hi; apply Hp; simpl in Hi; lia
     |change (start initial) with 1; lia].
  rewrite setInterval_step by reflexivity.
  cbn [advanced queries initial Nat.add]. rewrite Hrej.
  rewrite setInterval_disarmed by reflexivity.
  reflexivity.
Qed.

(** build.js: a rejected query changes nothing but the number of queries
    issued; the interval stays armed. *)
Lemma js_polls_through_rejections periods : forall p,
  (forall n, exists e, replies n = StatusRejects e) ->
  armed p = true ->
  setInterval (BuildJs.tick max int) replies periods p =
  {| start := start p; resolved := resolved p; armed := true;
     queries := queries p + periods |}.
Proof.
  induction periods as [|periods IH]; intros p Hrej Harmed.
  - destruct p; simpl in *. subst. rewrite Nat.add_0_r. reflexivity.
  - rewrite setInterval_step by assumption.
    destruct (Hrej (queries p)) as [e He]. unfold BuildJs.tick. rewrite He.
    rewrite IH by assumption. unfold query; cbn [start resolved queries].
    f_equal. lia.
Qed.

End Poller.



(** The defaults of [status] are that very budget. *)
Corollary status_default_budget (replies : nat -> StatusReply) (periods : nat) :
  BuildTs.status replies None None periods =
    BuildTs.status replies (Some 10) (Some 4) periods /\
  BuildJs.status replies None None periods =
    BuildJs.status replies (Some 10) (Some 4) periods.
Proof. split; reflexivity. Qed.

(** C3: evaluated where every status query is rejected.  build.ts resolves
    with "Error checking status" at the first query and stops; build.js never
    resolves and issues one more query in every period it is observed. *)
Theorem status_under_rejected_queries (periods : nat) :
  BuildTs.status Sample.unreachable None None (S periods) =
    {| start := 1; resolved := Some "Error checking status";
       armed := false; queries := 1 |} /\
  BuildJs.status Sample.unreachable None None periods =
    {| start := 1; resolved := None; armed := true; queries := periods |}.
Proof.
  split.
  - unfold BuildTs.status, default.
    rewrite (ts_stops_on_rejection Sample.unreachable 10 4 0
               (TransportError "fetch failed") (S periods));
      [reflexivity|intros i Hi; lia|reflexivity|lia|lia].
  - unfold BuildJs.status, default.
    rewrite js_polls_through_rejections;
      [reflexivity|intro n; eexists; reflexivity|reflexivity].
Qed.

(** ** Computations that only read the heap *)

Lemma read_only_ret {A : Type} (a : A) : read_only (ret a).
Proof. intros [h c]. unfold ret; simpl. rewrite app_nil_r. reflexivity. Qed.

Lemma read_only_throw {A : Type} (e : Exn) : read_only (@throw A e).
Proof. intros [h c]. unfold throw; simpl. rewrite app_nil_r. reflexivity. Qed.

Lemma read_only_request {A : Type} (c : Call) (answer : Outcome A) :
  read_only (request c answer).
Proof. intros [h cs]. reflexivity. Qed.

Lemma read_only_read (r : ArrayRef) : read_only (read r).
Proof. intros [h c]. unfold read; simpl. rewrite app_nil_r. reflexivity. Qed.

Lemma read_only_bind {A B : Type} (m : Async A) (k : A -> Async B) :
  read_only m -> (forall a, read_only (k a)) -> read_only (bind m k).
Proof.
  intros Hm Hk w. unfold bind.
  rewrite (Hm (fresh (heap w))). rewrite (Hm w). simpl.
  destruct (fst (m (fresh (heap w)))) as [a|e]; [|reflexivity].
  rewrite (Hk a {| heap := heap w;
                   calls := calls (snd (m (fresh (heap w)))) |}).
  rewrite (Hk a). simpl. rewrite app_assoc. reflexivity.
Qed.

Lemma read_only_try_catch {A : Type} (m : Async A) (handler : Exn -> Async A) :
  read_only m -> (forall e, read_only (handler e)) ->
  read_only (try_catch m handler).
Proof.
  intros Hm Hk w. unfold try_catch.
  rewrite (Hm (fresh (heap w))). rewrite (Hm w). simpl.
  destruct (fst (m (fresh (heap w)))) as [a|e]; [reflexivity|].
  rewrite (Hk e {| heap := heap w;
                   calls := calls (snd (m (fresh (heap w)))) |}).
  rewrite (Hk e). simpl. rewrite app_assoc. reflexivity.
Qed.

Create HintDb read_only_db.
#[local] Hint Resolve read_only_ret read_only_throw read_only_request
  read_only_read : read_only_db.

Ltac read_only_steps :=
  repeat first
    [ solve [auto with read_only_db]
    | apply read_only_bind; [|intro]
    | apply read_only_try_catch; [|intro]
    | match goal with
      | |- read_only (match ?x with _ => _ end) => destruct x
      end ].

Lemma ts_ComputeLimit_read_only net cluster payer ixs tolerance blockhash tables :
  read_only
    (BuildTs.ComputeLimit net cluster payer ixs tolerance blockhash tables).
Proof. unfold BuildTs.ComputeLimit. read_only_steps. Qed.

Lemma ts_FeeEstimate_read_only net cluster payer level ixs blockhash tables :
  read_only (BuildTs.FeeEstimate net cluster payer level ixs blockhash tables).
Proof. unfold BuildTs.FeeEstimate. read_only_steps. Qed.

#[local] Hint Resolve ts_ComputeLimit_read_only ts_FeeEstimate_read_only
  : read_only_db.

Lemma ts_tx_read_only net options : read_only (BuildTs.tx net options).
Proof. unfold BuildTs.tx. read_only_steps. Qed.

Lemma read_only_heap {A : Type} (m : Async A) (w : World) :
  read_only m -> heap (snd (m w)) = heap w.
Proof. intros H. rewrite (H w). reflexivity. Qed.

Lemma read_only_again {A : Type} (m : Async A) (w : World) :
  read_only m -> fst (m (snd (m w))) = fst (m w).
Proof.
  intros H. rewrite (H (snd (m w))). rewrite (read_only_heap m w H).
  rewrite (H w). reflexivity.
Qed.

(** build.ts: a second call on the same request, answered by the network
    as the first one was, gives the same result. *)
Lemma ts_tx_idempotent net options w :
  fst (BuildTs.tx net options (snd (BuildTs.tx net options w))) =
  fst (BuildTs.tx net options w).
Proof. apply read_only_again, ts_tx_read_only. Qed.

(** ** Running [tx] *)

Ltac unfold_async :=
  unfold BuildTs.tx, BuildTs.ComputeLimit, BuildTs.FeeEstimate,
         BuildJs.tx, BuildJs.ComputeLimit, BuildJs.FeeEstimate,
         bind, ret, throw, request, read, unshift, try_catch in *.

Ltac injections :=
  repeat match goal with
         | H : (_, _) = (_, _) |- _ => inversion H; subst; clear H
         | H : Returned _ = Returned _ |- _ => inversion H; subst; clear H
         | H : Some _ = Some _ |- _ => inversion H; subst; clear H
         end.

(** Follow every branch the run can take, in the hypotheses and the goal. *)
Ltac branches :=
  repeat (match goal with
          | H : context [match ?x with _ => _ end] |- _ => destruct x eqn:?
          | |- context [match ?x with _ => _ end] => destruct x eqn:?
          end; simpl in *; rewrite ?Nat.eqb_refl in *; try discriminate;
          injections).

(** Use what the network is known to answer to every simulation. *)
Ltac simulated Hsim :=
  repeat match goal with
         | H : simulateTransaction _ _ _ = _ |- _ =>
             rewrite Hsim in H; try discriminate H; injections
         end.

(** C7: whenever a request with compute and fee optimization both enabled
    yields a transaction, its instruction sequence is a price directive, then
    a budget directive, then the instructions the caller's array held when
    [tx] was called, in their order.  In build.ts and in build.js. *)
Theorem tx_directive_order (net : Network) (w w' : World) (r : TxReturn)
    (ref : ArrayRef) (ixs : list Instruction) :
  (forall o,
     BuildTs.instructions o = Some ref ->
     default true (BuildTs.compute o) = true ->
     default true (BuildTs.fees o) = true ->
     BuildTs.tx net o w = (Returned r, w') ->
     final_sequence r = Some ixs ->
     exists fee units,
       ixs = SetComputeUnitPrice fee :: SetComputeUnitLimit units
             :: heap w ref) /\
  (forall d,
     BuildJs.instructions d = Some ref ->
     default true (BuildJs.compute d) = true ->
     default true (BuildJs.fees d) = true ->
     BuildJs.tx net d w = (Returned r, w') ->
     final_sequence r = Some ixs ->
     exists fee units,
       ixs = SetComputeUnitPrice fee :: SetComputeUnitLimit units
             :: heap w ref).
Proof.
  split.
  - intros o Href Hc Hf Hrun Hseq.
    unfold BuildTs.tx in Hrun. rewrite Href, Hc, Hf in Hrun.
    unfold_async. simpl in Hrun. branches.
    all: unfold final_sequence in Hseq; simpl in Hseq; try discriminate;
      injections; eauto.
  - intros d Href Hc Hf Hrun Hseq.
    unfold BuildJs.tx in Hrun. rewrite Href, Hc, Hf in Hrun.
    unfold_async. simpl in Hrun. rewrite ?Nat.eqb_refl in Hrun. branches.
    all: unfold final_sequence in Hseq; simpl in Hseq; try discriminate;
      injections; eauto.
Qed.

Lemma tx_directive_order_witness :
  (BuildTs.instructions Sample.options = Some 0%nat /\
   default true (BuildTs.compute Sample.options) = true /\
   default true (BuildTs.fees Sample.options) = true /\
   BuildTs.tx Sample.quiet Sample.options Sample.world =
     (Returned (Obj "Transaction built successfully" None
                    (Some (Structured Sample.ts_transaction))),
      snd (BuildTs.tx Sample.quiet Sample.options Sample.world)) /\
   exists fee units,
     Sample.optimized =
     SetComputeUnitPrice fee :: SetComputeUnitLimit units
     :: heap Sample.world 0%nat) /\
  (BuildJs.instructions Sample.data = Some 0%nat /\
   default true (BuildJs.compute Sample.data) = true /\
   default true (BuildJs.fees Sample.data) = true /\
   BuildJs.tx Sample.quiet Sample.data Sample.world =
     (Returned (Obj "success" None (Some (Structured Sample.js_transaction))),
      snd (BuildJs.tx Sample.quiet Sample.data Sample.world)) /\
   exists fee units,
     Sample.optimized =
     SetComputeUnitPrice fee :: SetComputeUnitLimit units
     :: heap Sample.world 0%nat).
Proof.
  split; (do 4 (split; [vm_compute; reflexivity|])).
  - apply (proj1 (tx_directive_order Sample.quiet Sample.world
                    (snd (BuildTs.tx Sample.quiet Sample.options Sample.world))
                    (Obj "Transaction built successfully" None
                         (Some (Structured Sample.ts_transaction)))
                    0%nat Sample.optimized) Sample.options);
      vm_compute; reflexivity.
  - apply (proj2 (tx_directive_order Sample.quiet Sample.world
                    (snd (BuildJs.tx Sample.quiet Sample.data Sample.world))
                    (Obj "success" None
                         (Some (Structured Sample.js_transaction)))
                    0%nat Sample.optimized) Sample.data);
      vm_compute; reflexivity.
Defined.

(** C8, as the claim states it: with compute optimization enabled and a
    successful simulation the first instruction would be the budget
    directive.  With fee optimization left at its default it is the price
    directive, and the budget directive comes second. *)
Lemma budget_directive_is_not_first :
  default true (BuildTs.compute Sample.options) = true /\
  err (Sample.consumed 100) = None /\
  outcome_sequence
    (fst (BuildTs.tx Sample.quiet Sample.options Sample.world)) =
    Some Sample.optimized /\
  option_map is_budget_directive (hd_error Sample.optimized) = Some false.
Proof. vm_compute. repeat split. Qed.

(** C8, amended: when the dry run succeeds, the budget directive carries
    [Math.ceil(unitsConsumed * tolerance)] (binary64 product, tolerance 1.1
    by default) and sits immediately before the caller's instructions: first
    in the sequence when fee optimization is disabled, second, after the
    price directive, when it is enabled.  In build.ts and in build.js. *)
Theorem tx_budget_directive_units (net : Network) (sv : SimulationValue)
    (w w' : World) (r : TxReturn) (ref : ArrayRef) (ixs : list Instruction) :
  (forall cluster t, simulateTransaction net cluster t = Returned sv) ->
  err sv = None ->
  final_sequence r = Some ixs ->
  (forall o,
     BuildTs.instructions o = Some ref ->
     default true (BuildTs.compute o) = true ->
     BuildTs.tx net o w = (Returned r, w') ->
     let budget :=
       SetComputeUnitLimit
         (Units (Js.Math_ceil
                   (PrimFloat.mul (Js.ToNumber (unitsConsumed sv))
                                  (default 1.1%float (BuildTs.tolerance o))))) in
     if default true (BuildTs.fees o)
     then exists fee, ixs = SetComputeUnitPrice fee :: budget :: heap w ref
     else ixs = budget :: heap w ref) /\
  (forall d,
     BuildJs.instructions d = Some ref ->
     default true (BuildJs.compute d) = true ->
     BuildJs.tx net d w = (Returned r, w') ->
     let budget :=
       SetComputeUnitLimit
         (Units (Js.Math_ceil
                   (PrimFloat.mul (Js.ToNumber (unitsConsumed sv))
                                  (default 1.1%float (BuildJs.tolerance d))))) in
     if default true (BuildJs.fees d)
     then exists fee, ixs = SetComputeUnitPrice fee :: budget :: heap w ref
     else ixs = budget :: heap w ref).
Proof.
  intros Hsim Herr Hseq. split.
  - intros o Href Hc Hrun budget. subst budget.
    unfold BuildTs.tx in Hrun. rewrite Href, Hc in Hrun.
    unfold_async. simpl in Hrun. branches.
    all: simulated Hsim; try congruence.
    all: unfold final_sequence in Hseq; simpl in Hseq; try discriminate;
      injections; eauto.
  - intros d Href Hc Hrun budget. subst budget.
    unfold BuildJs.tx in Hrun. rewrite Href, Hc in Hrun.
    unfold_async. simpl in Hrun. rewrite ?Nat.eqb_refl in Hrun. branches.
    all: simulated Hsim; try congruence.
    all: unfold final_sequence in Hseq; simpl in Hseq; try discriminate;
      injections; eauto.
Qed.

Lemma tx_budget_directive_units_witness :
  (forall cluster t,
     simulateTransaction Sample.quiet cluster t =
     Returned (Sample.consumed 100)) /\
  err (Sample.consumed 100) = None /\
  final_sequence (Obj "Transaction built successfully" None
                      (Some (Structured Sample.ts_transaction))) =
    Some Sample.optimized /\
  BuildTs.instructions Sample.options = Some 0%nat /\
  default true (BuildTs.compute Sample.options) = true /\
  BuildTs.tx Sample.quiet Sample.options Sample.world =
    (Returned (Obj "Transaction built successfully" None
                   (Some (Structured Sample.ts_transaction))),
     snd (BuildTs.tx Sample.quiet Sample.options Sample.world)) /\
  exists fee,
    Sample.optimized =
    SetComputeUnitPrice fee :: SetComputeUnitLimit (Units 111)
    :: heap Sample.world 0%nat.
Proof.
  split; [intros cluster t; reflexivity|].
  do 5 (split; [vm_compute; reflexivity|]).
  apply (proj1 (tx_budget_directive_units Sample.quiet (Sample.consumed 100)
                  Sample.world
                  (snd (BuildTs.tx Sample.quiet Sample.options Sample.world))
                  (Obj "Transaction built successfully" None
                       (Some (Structured Sample.ts_transaction)))
                  0%nat Sample.optimized
                  (fun cluster t => eq_refl) eq_refl eq_refl)
               Sample.options);
    vm_compute; reflexivity.
Defined.

(** C10: build.ts never changes the heap, so the array the caller passed as
    [options.instructions] holds after the call exactly what it held before,
    whatever the outcome.  build.js unshifts into that array: after a call
    that yields a transaction the caller's array is the transaction's
    instruction sequence, the directives (one per enabled optimization) in
    front of what it held before. *)
Theorem tx_caller_array (net : Network) (w : World) :
  (forall o, heap (snd (BuildTs.tx net o w)) = heap w) /\
  (forall d ref r w' ixs,
     BuildJs.instructions d = Some ref ->
     BuildJs.tx net d w = (Returned r, w') ->
     final_sequence r = Some ixs ->
     heap w' ref = ixs /\
     exists directives,
       ixs = (directives ++ heap w ref)%list /\
       List.length directives =
         ((if default true (BuildJs.compute d) then 1 else 0) +
          (if default true (BuildJs.fees d) then 1 else 0))%nat).
Proof.
  split.
  - intros o. apply read_only_heap, ts_tx_read_only.
  - intros d ref r w' ixs Href Hrun Hseq.
    unfold BuildJs.tx in Hrun. rewrite Href in Hrun.
    unfold_async. simpl in Hrun. rewrite ?Nat.eqb_refl in Hrun. branches.
    all: unfold final_sequence in Hseq; simpl in Hseq; try discriminate;
      injections.
    all: simpl; repeat (rewrite Nat.eqb_refl; simpl).
    all: repeat match goal with
                | H : logs ?x = _ |- context [logs ?x] => rewrite H
                end.
    all: split; [reflexivity|].
    all: first [ exists [] ; split; reflexivity
               | eexists [_]; split; reflexivity
               | eexists [_; _]; split; reflexivity ].
Qed.

Lemma tx_caller_array_witness :
  heap (snd (BuildTs.tx Sample.quiet Sample.options Sample.world)) 0%nat =
    [Sample.transfer] /\
  BuildJs.instructions Sample.data = Some 0%nat /\
  final_sequence (Obj "success" None
                      (Some (Structured Sample.js_transaction))) =
    Some Sample.optimized /\
  heap (snd (BuildJs.tx Sample.quiet Sample.data Sample.world)) 0%nat =
    Sample.optimized.
Proof.
  split.
  - rewrite (proj1 (tx_caller_array Sample.quiet Sample.world) Sample.options).
    reflexivity.
  - do 2 (split; [reflexivity|]).
    apply (proj2 (tx_caller_array Sample.quiet Sample.world) Sample.data
             0%nat (Obj "success" None
                        (Some (Structured Sample.js_transaction)))
             (snd (BuildJs.tx Sample.quiet Sample.data Sample.world))
             Sample.optimized);
      vm_compute; reflexivity.
Defined.

(** build.ts and build.js: when the failed simulation reports log lines,
    [tx] resolves to a failure object carrying exactly those lines, and no
    fee-oracle call is added to the log. *)
Lemma tx_simulation_failure_logs (net : Network) (sv : SimulationValue)
    (l : list string) (w w' : World) (r : TxReturn) :
  (forall cluster t, simulateTransaction net cluster t = Returned sv) ->
  err sv <> None ->
  logs sv = Some l ->
  (forall o,
     ts_valid o = true ->
     default true (BuildTs.compute o) = true ->
     BuildTs.tx net o w = (Returned r, w') ->
     r = Obj "Error during simulation" (Some l) None /\
     fee_calls w' = fee_calls w) /\
  (forall d,
     js_valid d = true ->
     default true (BuildJs.compute d) = true ->
     BuildJs.tx net d w = (Returned r, w') ->
     r = Obj "error when simulating the transaction" (Some l) None /\
     fee_calls w' = fee_calls w).
Proof.
  intros Hsim Herr Hlogs. split.
  - intros o Hvalid Hc Hrun. unfold ts_valid in Hvalid.
    unfold BuildTs.tx in Hrun. rewrite Hc in Hrun.
    unfold_async. simpl in Hrun. branches.
    all: simulated Hsim; try congruence.
    all: try (destruct (is_empty _), (is_empty _); discriminate).
    all: split; [congruence|].
    all: destruct w; unfold fee_calls; simpl;
      rewrite !filter_app; simpl; rewrite !app_nil_r; reflexivity.
  - intros d Hvalid Hc Hrun. unfold js_valid in Hvalid.
    unfold BuildJs.tx in Hrun. rewrite Hc in Hrun.
    unfold_async. simpl in Hrun. rewrite ?Nat.eqb_refl in Hrun. branches.
    all: simulated Hsim; try congruence.
    all: try (destruct (is_empty _), (is_empty _); discriminate).
    all: split; [congruence|].
    all: destruct w; unfold fee_calls; simpl;
      rewrite !filter_app; simpl; rewrite !app_nil_r; reflexivity.
Qed.

(** The scenario of the specification: logs ["log A"; "log B"]. *)
Example tx_simulation_failure_scenario :
  BuildTs.tx Sample.failing Sample.options Sample.world =
    (Returned (Obj "Error during simulation" (Some ["log A"; "log B"]) None),
     snd (BuildTs.tx Sample.failing Sample.options Sample.world)) /\
  fee_calls (snd (BuildTs.tx Sample.failing Sample.options Sample.world)) = [].
Proof. vm_compute. split; reflexivity. Qed.

(** C1: evaluated where the dry run reports an error and [logs] is [null]
    (the simulation failed before the transaction ran).  Neither variant
    returns a failure: each goes on with a budget directive made from the
    error object, queries the fee oracle once, and resolves to a built
    transaction. *)
Theorem tx_after_simulation_error_without_logs :
  (fst (BuildTs.tx Sample.rejecting Sample.options Sample.world) =
     Returned
       (Obj "Transaction built successfully" None
          (Some (Structured
                   (compile Sample.payer Sample.blockhash
                      [SetComputeUnitPrice (Js.Int 10000);
                       SetComputeUnitLimit
                         (SimulationError "Error during simulation" None);
                       Sample.transfer]
                      (TableList []))))) /\
   List.length
     (fee_calls (snd (BuildTs.tx Sample.rejecting Sample.options Sample.world)))
   = 1%nat) /\
  (fst (BuildJs.tx Sample.rejecting Sample.data Sample.world) =
     Returned
       (Obj "success" None
          (Some (Structured
                   (compile Sample.payer Sample.blockhash
                      [SetComputeUnitPrice (Js.Int 10000);
                       SetComputeUnitLimit
                         (SimulationError "error during simulation" None);
                       Sample.transfer]
                      NoTables)))) /\
   List.length
     (fee_calls (snd (BuildJs.tx Sample.rejecting Sample.data Sample.world)))
   = 1%nat).
Proof. vm_compute. repeat split. Qed.

(** C4, as the claim states it: a request with [encode] and without
    [serialize] would give the base64 text that [serialize] with [encode]
    gives.  In build.js it gives the unserialized transaction object. *)
Lemma encode_without_serialize_is_not_base64 :
  fst (BuildJs.tx Sample.quiet (js_with_output false true Sample.data)
         Sample.world) =
    Returned (Obj "success" None (Some (Structured Sample.js_transaction))) /\
  fst (BuildJs.tx Sample.quiet (js_with_output true true Sample.data)
         Sample.world) =
    Returned (BareText (Base64Of (Serialized Sample.js_transaction))) /\
  fst (BuildJs.tx Sample.quiet (js_with_output false true Sample.data)
         Sample.world) <>
  fst (BuildJs.tx Sample.quiet (js_with_output true true Sample.data)
         Sample.world).
Proof.
  assert (H1 : fst (BuildJs.tx Sample.quiet
                      (js_with_output false true Sample.data) Sample.world) =
               Returned (Obj "success" None
                             (Some (Structured Sample.js_transaction))))
    by (vm_compute; reflexivity).
  assert (H2 : fst (BuildJs.tx Sample.quiet
                      (js_with_output true true Sample.data) Sample.world) =
               Returned (BareText
                           (Base64Of (Serialized Sample.js_transaction))))
    by (vm_compute; reflexivity).
  split; [exact H1|]. split; [exact H2|].
  rewrite H1, H2. discriminate.
Qed.

(** build.ts hands the unserialized transaction object to [Buffer.from]. *)
Example ts_encode_without_serialize :
  fst (BuildTs.tx Sample.quiet (ts_with_output false true Sample.options)
         Sample.world) =
  Thrown (TypeError "Buffer.from: unsupported argument").
Proof. vm_compute. reflexivity. Qed.

(** C4, amended: [encode] acts on the serialized bytes and does not imply
    [serialize].  Where a request yields the transaction [t] with both
    toggles off, the same request with [serialize] and [encode] on yields
    the base64 text of the serialized bytes of [t], in build.ts and in
    build.js; and in build.js the request with [encode] alone yields what it
    yields with both off, the transaction object [t]. *)
Theorem tx_encode_applies_to_serialized (net : Network) (w w' : World)
    (t : VersionedTransaction) :
  (forall o,
     BuildTs.tx net (ts_with_output false false o) w =
       (Returned (Obj "Transaction built successfully" None
                      (Some (Structured t))), w') ->
     BuildTs.tx net (ts_with_output true true o) w =
       (Returned (Obj "Success" None
                      (Some (Encoded (Base64Of (Serialized t))))), w')) /\
  (forall d,
     BuildJs.tx net (js_with_output false false d) w =
       (Returned (Obj "success" None (Some (Structured t))), w') ->
     BuildJs.tx net (js_with_output true true d) w =
       (Returned (BareText (Base64Of (Serialized t))), w') /\
     BuildJs.tx net (js_with_output false true d) w =
       (Returned (Obj "success" None (Some (Structured t))), w')).
Proof.
  split.
  - intros o H. unfold_async. simpl in *. branches.
    all: try reflexivity; try discriminate.
  - intros d H. unfold_async. simpl in *. branches.
    all: try (split; reflexivity); try discriminate.
Qed.

Lemma tx_encode_applies_to_serialized_witness :
  (BuildTs.tx Sample.quiet (ts_with_output false false Sample.options)
     Sample.world =
     (Returned (Obj "Transaction built successfully" None
                    (Some (Structured Sample.ts_transaction))),
      snd (BuildTs.tx Sample.quiet Sample.options Sample.world)) /\
   BuildTs.tx Sample.quiet (ts_with_output true true Sample.options)
     Sample.world =
     (Returned (Obj "Success" None
                    (Some (Encoded
                             (Base64Of (Serialized Sample.ts_transaction))))),
      snd (BuildTs.tx Sample.quiet Sample.options Sample.world))) /\
  (BuildJs.tx Sample.quiet (js_with_output false false Sample.data)
     Sample.world =
     (Returned (Obj "success" None (Some (Structured Sample.js_transaction))),
      snd (BuildJs.tx Sample.quiet Sample.data Sample.world)) /\
   BuildJs.tx Sample.quiet (js_with_output true true Sample.data)
     Sample.world =
     (Returned (BareText (Base64Of (Serialized Sample.js_transaction))),
      snd (BuildJs.tx Sample.quiet Sample.data Sample.world)) /\
   BuildJs.tx Sample.quiet (js_with_output false true Sample.data)
     Sample.world =
     (Returned (Obj "success" None (Some (Structured Sample.js_transaction))),
      snd (BuildJs.tx Sample.quiet Sample.data Sample.world))).
Proof.
  split; (split; [vm_compute; reflexivity|]).
  - apply (proj1 (tx_encode_applies_to_serialized Sample.quiet Sample.world
                    (snd (BuildTs.tx Sample.quiet Sample.options Sample.world))
                    Sample.ts_transaction) Sample.options).
    vm_compute; reflexivity.
  - apply (proj2 (tx_encode_applies_to_serialized Sample.quiet Sample.world
                    (snd (BuildJs.tx Sample.quiet Sample.data Sample.world))
                    Sample.js_transaction) Sample.data).
    vm_compute; reflexivity.
Defined.

(** C5: evaluated on two calls of build.js with the same request object and
    the same network answers.  The first call leaves its directives in the
    caller's array, so the second prepends a second pair of directives and
    its payload differs from the first; build.ts, called twice in the same
    way, returns the same payload. *)
Theorem tx_called_twice :
  outcome_sequence
    (fst (BuildJs.tx Sample.quiet Sample.data Sample.world)) =
    Some Sample.optimized /\
  outcome_sequence
    (fst (BuildJs.tx Sample.quiet Sample.data
            (snd (BuildJs.tx Sample.quiet Sample.data Sample.world)))) =
    Some (SetComputeUnitPrice (Js.Int 10000)
          :: SetComputeUnitLimit (Units 111) :: Sample.optimized) /\
  fst (BuildJs.tx Sample.quiet Sample.data
         (snd (BuildJs.tx Sample.quiet Sample.data Sample.world))) <>
  fst (BuildJs.tx Sample.quiet Sample.data Sample.world) /\
  fst (BuildTs.tx Sample.quiet Sample.options
         (snd (BuildTs.tx Sample.quiet Sample.options Sample.world))) =
  fst (BuildTs.tx Sample.quiet Sample.options Sample.world).
Proof.
  split; [vm_compute; reflexivity|].
  split; [vm_compute; reflexivity|].
  split; [|apply ts_tx_idempotent].
  intros H. apply (f_equal outcome_sequence) in H. vm_compute in H.
  discriminate H.
Qed.

(** ** Fee estimation *)

(** What [FeeEstimate] does with each way the oracle can fail.  build.ts
    turns a failed transport, an unparsable body and a body without
    [result] into one error; build.js lets the first two through and raises
    a [TypeError] on the third. *)
Lemma FeeEstimate_failures (net : Network)
    (cluster payer level blockhash : string) (ixs : list Instruction)
    (tables : Tables) (w : World) (reply : FetchReply) :
  (forall url t l, fetch net url t l = reply) ->
  match reply with
  | FetchRejects e | JsonRejects e =>
      fst (BuildTs.FeeEstimate net cluster payer level ixs blockhash tables w)
        = Thrown (Error "Failed to estimate fee") /\
      fst (BuildJs.FeeEstimate net cluster payer level ixs blockhash tables w)
        = Thrown e
  | Body None =>
      fst (BuildTs.FeeEstimate net cluster payer level ixs blockhash tables w)
        = Thrown (Error "Failed to estimate fee") /\
      fst (BuildJs.FeeEstimate net cluster payer level ixs blockhash tables w)
        = Thrown (TypeError "data.result is undefined")
  | Body (Some v) =>
      fst (BuildTs.FeeEstimate net cluster payer level ixs blockhash tables w)
        = Returned (Js.Math_max (Js.parseInt10 v) (Js.Int 10000)) /\
      fst (BuildJs.FeeEstimate net cluster payer level ixs blockhash tables w)
        = Returned (Js.Math_max (Js.parseInt v) (Js.Int 10000))
  end.
Proof.
  intros Hfetch.
  unfold BuildTs.FeeEstimate, BuildJs.FeeEstimate, try_catch, bind, request,
    throw, ret.
  rewrite !Hfetch.
  destruct reply as [e|e|[v|]]; simpl; split; reflexivity.
Qed.

(** C6: evaluated where the oracle's body has a [result] without a
    [priorityFeeEstimate], and where that field is text with no digits:
    nothing is thrown, [FeeEstimate] returns NaN in both variants. *)
Theorem FeeEstimate_unparsable_estimate :
  (fst (BuildTs.FeeEstimate Sample.silent Sample.endpoint Sample.payer "Medium"
          Sample.budgeted Sample.blockhash (TableList []) Sample.world) =
     Returned Js.NaN /\
   fst (BuildJs.FeeEstimate Sample.silent Sample.endpoint Sample.payer "Medium"
          Sample.budgeted Sample.blockhash NoTables Sample.world) =
     Returned Js.NaN) /\
  (fst (BuildTs.FeeEstimate
          (Sample.network (Sample.consumed 100) (Js.JsString "n/a"))
          Sample.endpoint Sample.payer "Medium"
          Sample.budgeted Sample.blockhash (TableList []) Sample.world) =
     Returned Js.NaN /\
   fst (BuildJs.FeeEstimate
          (Sample.network (Sample.consumed 100) (Js.JsString "n/a"))
          Sample.endpoint Sample.payer "Medium"
          Sample.budgeted Sample.blockhash NoTables Sample.world) =
     Returned Js.NaN).
Proof. vm_compute. repeat split. Qed.

(** C9: when the oracle's estimate is the number [z], [FeeEstimate] returns
    [max(z, 10000)], which is exactly 10000 when [z] is below 10000.  In
    build.ts and in build.js.  ([z] ranges over the integers binary64 holds
    exactly.) *)
Theorem FeeEstimate_floor (net : Network)
    (cluster payer level blockhash : string) (ixs : list Instruction)
    (tables : Tables) (w : World) (z : Z) :
  (Z.abs z <= 2 ^ 53)%Z ->
  (forall url t l, fetch net url t l = Body (Some (Js.JsNumber z))) ->
  (fst (BuildTs.FeeEstimate net cluster payer level ixs blockhash tables w) =
     Returned (Js.Int (Z.max z 10000)) /\
   fst (BuildJs.FeeEstimate net cluster payer level ixs blockhash tables w) =
     Returned (Js.Int (Z.max z 10000))) /\
  ((z < 10000)%Z ->
   fst (BuildTs.FeeEstimate net cluster payer level ixs blockhash tables w) =
     Returned (Js.Int 10000) /\
   fst (BuildJs.FeeEstimate net cluster payer level ixs blockhash tables w) =
     Returned (Js.Int 10000)).
Proof.
  intros _ Hfetch.
  pose proof (FeeEstimate_failures net cluster payer level blockhash ixs
                tables w _ Hfetch) as [Hts Hjs].
  cbv beta iota in Hts, Hjs.
  rewrite parseInt10_number in Hts. rewrite parseInt_number in Hjs.
  simpl Js.Math_max in Hts, Hjs.
  split; [split; assumption|].
  intros Hz. rewrite Hts, Hjs. rewrite Z.max_r by lia. split; reflexivity.
Qed.

Lemma FeeEstimate_floor_witness :
  (Z.abs 5000 <= 2 ^ 53)%Z /\
  (forall url t l,
     fetch Sample.quiet url t l = Body (Some (Js.JsNumber 5000))) /\
  (5000 < 10000)%Z /\
  fst (BuildTs.FeeEstimate Sample.quiet Sample.endpoint Sample.payer "Medium"
         Sample.budgeted Sample.blockhash (TableList []) Sample.world) =
    Returned (Js.Int 10000) /\
  fst (BuildJs.FeeEstimate Sample.quiet Sample.endpoint Sample.payer "Medium"
         Sample.budgeted Sample.blockhash NoTables Sample.world) =
    Returned (Js.Int 10000).
Proof.
  assert (Hsafe : (Z.abs 5000 <= 2 ^ 53)%Z) by (vm_compute; discriminate).
  split; [exact Hsafe|].
  split; [intros url t l; reflexivity|].
  split; [reflexivity|].
  split.
  - apply (proj2 (FeeEstimate_floor Sample.quiet Sample.endpoint Sample.payer
                    "Medium" Sample.blockhash Sample.budgeted (TableList [])
                    Sample.world 5000 Hsafe (fun url t l => eq_refl)) eq_refl).
  - apply (proj2 (FeeEstimate_floor Sample.quiet Sample.endpoint Sample.payer
                    "Medium" Sample.blockhash Sample.budgeted NoTables
                    Sample.world 5000 Hsafe (fun url t l => eq_refl)) eq_refl).
Defined.

(** * Further properties *)

(** ** The confirmation poller, beyond the timeout *)










Lemma resolve_settles v p : settled (resolve v p) = true.
Proof. unfold settled, resolve; simpl. destruct (resolved p); reflexivity. Qed.

Lemma ts_tick_keeps_pairing max int reply p :
  armed p = negb (settled p) ->
  armed (BuildTs.tick max int reply p) =
  negb (settled (BuildTs.tick max int reply p)).
Proof.
  intros H. unfold BuildTs.tick.
  destruct reply as [e|first].
  - unfold settled, clearInterval, resolve, query; simpl.
    destruct (resolved p); reflexivity.
  - destruct (finalized first); [destruct (has_err first)|];
      unfold settled, clearInterval, resolve, increment, query in *; simpl;
      destruct (_ >? max); simpl; destruct (resolved p); simpl in *;
      congruence.
Qed.

Lemma js_tick_keeps_pairing max int reply p :
  armed p = negb (settled p) ->
  armed (BuildJs.tick max int reply p) =
  negb (settled (BuildJs.tick max int reply p)).
Proof.
  intros H. unfold BuildJs.tick.
  destruct reply as [e|first].
  - exact H.
  - destruct (finalized first); [destruct (has_err first)|];
      unfold settled, clearInterval, resolve, increment, query in *; simpl;
      try destruct (_ >=? max); simpl; destruct (resolved p); simpl in *;
      congruence.
Qed.

Lemma setInterval_keeps (P : Poll -> Prop) callback replies :
  (forall reply p, P p -> P (callback reply p)) ->
  forall periods p, P p -> P (setInterval callback replies periods p).
Proof.
  intros Hstep. induction periods as [|periods IH]; intros p Hp; simpl.
  - exact Hp.
  - destruct (armed p); [apply IH, Hstep, Hp|exact Hp].
Qed.

(** X5: both pollers, at every moment of every run: the interval is armed
    exactly when the promise is not resolved yet.  A resolved poll leaves no
    timer behind, and a poll never stops without telling its caller. *)
Theorem status_resolved_iff_cleared (replies : nat -> StatusReply)
    (max int : option Z) (periods : nat) :
  armed (BuildTs.status replies max int periods) =
    negb (settled (BuildTs.status replies max int periods)) /\
  armed (BuildJs.status replies max int periods) =
    negb (settled (BuildJs.status replies max int periods)).
Proof.
  unfold BuildTs.status, BuildJs.status. split.
  - apply (setInterval_keeps (fun p => armed p = negb (settled p)));
      [intros reply p; apply ts_tick_keeps_pairing|reflexivity].
  - apply (setInterval_keeps (fun p => armed p = negb (settled p)));
      [intros reply p; apply js_tick_keeps_pairing|reflexivity].
Qed.









(** ** [tx]: validation, call order, failures and frames *)

(** X9: build.ts: a request whose [rpc] or [account] is missing or empty, or
    whose [instructions] is missing, is answered "Missing required
    parameters" and leaves the world as it was: no network call, no change
    to any array. *)
Theorem ts_tx_rejects_incomplete_request (net : Network)
    (o : BuildTs.TxOptions) (w : World) :
  falsy (BuildTs.rpc o) || falsy (BuildTs.account o)
  || match BuildTs.instructions o with Some _ => false | None => true end
  = true ->
  BuildTs.tx net o w =
    (Returned (Obj "Missing required parameters" None None), w).
Proof.
  intros H. unfold BuildTs.tx, ret.
  destruct (BuildTs.rpc o) as [[|a s]|], (BuildTs.account o) as [[|a' s']|],
    (BuildTs.instructions o); simpl in *; try reflexivity; discriminate H.
Qed.

Lemma ts_tx_rejects_incomplete_request_witness :
  falsy (BuildTs.rpc Scenario.ts_no_rpc)
  || falsy (BuildTs.account Scenario.ts_no_rpc)
  || match BuildTs.instructions Scenario.ts_no_rpc with
     | Some _ => false
     | None => true
     end = true /\
  BuildTs.tx Sample.quiet Scenario.ts_no_rpc Sample.world =
    (Returned (Obj "Missing required parameters" None None), Sample.world).
Proof.
  split; [reflexivity|].
  apply (ts_tx_rejects_incomplete_request Sample.quiet Scenario.ts_no_rpc
           Sample.world eq_refl).
Defined.

(** X10: build.js: the required fields are checked in the order [rpc],
    [account], [instructions], each with a message of its own, and a
    rejected request leaves the world as it was. *)
Theorem js_tx_rejects_incomplete_request (net : Network)
    (d : BuildJs.TxData) (w : World) :
  (falsy (BuildJs.rpc d) = true ->
   BuildJs.tx net d w = (Returned (Obj "missing rpc" None None), w)) /\
  (falsy (BuildJs.rpc d) = false -> falsy (BuildJs.account d) = true ->
   BuildJs.tx net d w = (Returned (Obj "missing account" None None), w)) /\
  (falsy (BuildJs.rpc d) = false -> falsy (BuildJs.account d) = false ->
   BuildJs.instructions d = None ->
   BuildJs.tx net d w = (Returned (Obj "missing instructions" None None), w)).
Proof.
  unfold BuildJs.tx, ret.
  destruct (BuildJs.rpc d) as [[|a s]|], (BuildJs.account d) as [[|a' s']|],
    (BuildJs.instructions d); simpl; repeat split; intros;
    try reflexivity; discriminate.
Qed.

Lemma js_tx_rejects_incomplete_request_witness :
  falsy (BuildJs.rpc Scenario.js_no_account) = false /\
  falsy (BuildJs.account Scenario.js_no_account) = true /\
  BuildJs.tx Sample.quiet Scenario.js_no_account Sample.world =
    (Returned (Obj "missing account" None None), Sample.world).
Proof.
  do 2 (split; [reflexivity|]).
  apply (proj1 (proj2 (js_tx_rejects_incomplete_request Sample.quiet
                         Scenario.js_no_account Sample.world))
           eq_refl eq_refl).
Defined.

(** X11: with compute and fee optimization both disabled, a transaction that
    [tx] yields carries exactly the caller's instructions, the only network
    call is the one for the latest blockhash, and no array is changed.  In
    build.ts and in build.js. *)
Theorem tx_without_optimization (net : Network) (w w' : World) (r : TxReturn)
    (rpc : string) (ref : ArrayRef) (ixs : list Instruction) :
  final_sequence r = Some ixs ->
  (forall o,
     BuildTs.rpc o = Some rpc ->
     BuildTs.instructions o = Some ref ->
     default true (BuildTs.compute o) = false ->
     default true (BuildTs.fees o) = false ->
     BuildTs.tx net o w = (Returned r, w') ->
     ixs = heap w ref /\
     w' = {| heap := heap w; calls := calls w ++ [GetLatestBlockhash rpc] |}) /\
  (forall d,
     BuildJs.rpc d = Some rpc ->
     BuildJs.instructions d = Some ref ->
     default true (BuildJs.compute d) = false ->
     default true (BuildJs.fees d) = false ->
     BuildJs.tx net d w = (Returned r, w') ->
     ixs = heap w ref /\
     w' = {| heap := heap w; calls := calls w ++ [GetLatestBlockhash rpc] |}).
Proof.
  intros Hseq. split.
  - intros o Hrpc Href Hc Hf Hrun.
    unfold BuildTs.tx in Hrun. rewrite Hrpc, Href, Hc, Hf in Hrun.
    unfold_async. simpl in Hrun. branches.
    all: unfold final_sequence in Hseq; simpl in Hseq; try discriminate;
      injections; split; reflexivity.
  - intros d Hrpc Href Hc Hf Hrun.
    unfold BuildJs.tx in Hrun. rewrite Hrpc, Href, Hc, Hf in Hrun.
    unfold_async. simpl in Hrun. branches.
    all: unfold final_sequence in Hseq; simpl in Hseq; try discriminate;
      injections; split; reflexivity.
Qed.

Lemma tx_without_optimization_witness :
  final_sequence (Obj "Transaction built successfully" None
                      (Some (Structured Scenario.plain_transaction))) =
    Some [Sample.transfer] /\
  BuildTs.rpc Scenario.ts_plain = Some Sample.endpoint /\
  BuildTs.instructions Scenario.ts_plain = Some 0%nat /\
  default true (BuildTs.compute Scenario.ts_plain) = false /\
  default true (BuildTs.fees Scenario.ts_plain) = false /\
  BuildTs.tx Sample.quiet Scenario.ts_plain Sample.world =
    (Returned (Obj "Transaction built successfully" None
                   (Some (Structured Scenario.plain_transaction))),
     snd (BuildTs.tx Sample.quiet Scenario.ts_plain Sample.world)) /\
  [Sample.transfer] = heap Sample.world 0%nat /\
  snd (BuildTs.tx Sample.quiet Scenario.ts_plain Sample.world) =
    {| heap := heap Sample.world;
       calls := calls Sample.world ++ [GetLatestBlockhash Sample.endpoint] |}.
Proof.
  do 5 (split; [reflexivity|]). split; [vm_compute; reflexivity|].
  apply (proj1 (tx_without_optimization Sample.quiet Sample.world
                  (snd (BuildTs.tx Sample.quiet Scenario.ts_plain Sample.world))
                  (Obj "Transaction built successfully" None
                       (Some (Structured Scenario.plain_transaction)))
                  Sample.endpoint 0%nat [Sample.transfer] eq_refl)
           Scenario.ts_plain);
    vm_compute; reflexivity.
Defined.

(** X12: with both optimizations enabled, a call that yields a transaction
    has issued exactly three network calls, in this order: the latest
    blockhash, a simulation of the caller's instructions behind a budget
    directive of 1400000 units, and a fee query for the caller's
    instructions behind the budget directive that ends up in the
    transaction.  build.ts queries the oracle at [rpc + "/"], build.js at
    [rpc] and with "Extreme" replaced by "VeryHigh". *)
Theorem tx_calls_in_order (net : Network) (w w' : World) (r : TxReturn)
    (rpc account : string) (ref : ArrayRef) (ixs : list Instruction) :
  final_sequence r = Some ixs ->
  (forall o,
     BuildTs.rpc o = Some rpc ->
     BuildTs.account o = Some account ->
     BuildTs.instructions o = Some ref ->
     default true (BuildTs.compute o) = true ->
     default true (BuildTs.fees o) = true ->
     BuildTs.tx net o w = (Returned r, w') ->
     exists blockhash fee budget,
       ixs = SetComputeUnitPrice fee :: budget :: heap w ref /\
       heap w' = heap w /\
       calls w' =
         (calls w ++
          [GetLatestBlockhash rpc;
           SimulateTransaction rpc
             (compile account blockhash
                (SetComputeUnitLimit (Units 1400000) :: heap w ref)
                (TableList (default [] (BuildTs.table o))));
           GetPriorityFeeEstimate (rpc ++ "/")
             (Serialized
                (compile account blockhash (budget :: heap w ref)
                   (TableList (default [] (BuildTs.table o)))))
             (default "Medium" (BuildTs.priority o))])%list) /\
  (forall d,
     BuildJs.rpc d = Some rpc ->
     BuildJs.account d = Some account ->
     BuildJs.instructions d = Some ref ->
     default true (BuildJs.compute d) = true ->
     default true (BuildJs.fees d) = true ->
     BuildJs.tx net d w = (Returned r, w') ->
     let tables :=
       match BuildJs.tables d with
       | Some t => TableList t
       | None => NoTables
       end in
     let level :=
       if String.eqb (default "Medium" (BuildJs.priority d)) "Extreme"
       then "VeryHigh"
       else default "Medium" (BuildJs.priority d) in
     exists blockhash fee budget,
       ixs = SetComputeUnitPrice fee :: budget :: heap w ref /\
       heap w' ref = ixs /\
       calls w' =
         (calls w ++
          [GetLatestBlockhash rpc;
           SimulateTransaction rpc
             (compile account blockhash
                (SetComputeUnitLimit (Units 1400000) :: heap w ref) tables);
           GetPriorityFeeEstimate rpc
             (Serialized
                (compile account blockhash (budget :: heap w ref) tables))
             level])%list).
Proof.
  intros Hseq. split.
  - intros o Hrpc Hacc Href Hc Hf Hrun.
    unfold BuildTs.tx in Hrun. rewrite Hrpc, Hacc, Href, Hc, Hf in Hrun.
    unfold_async. simpl in Hrun. branches.
    all: unfold final_sequence in Hseq; simpl in Hseq; try discriminate;
      injections.
    all: do 3 eexists; split; [reflexivity|]; split; [reflexivity|].
    all: repeat match goal with
                | H : logs ?x = _ |- context [logs ?x] => rewrite H
                end.
    all: rewrite <- !app_assoc; reflexivity.
  - intros d Hrpc Hacc Href Hc Hf Hrun tables level. subst tables level.
    unfold BuildJs.tx in Hrun. rewrite Hrpc, Hacc, Href, Hc, Hf in Hrun.
    unfold_async. simpl in Hrun. rewrite ?Nat.eqb_refl in Hrun. branches.
    all: unfold final_sequence in Hseq; simpl in Hseq; try discriminate;
      injections.
    all: simpl; repeat (rewrite Nat.eqb_refl; simpl).
    all: do 3 eexists; split; [reflexivity|].
    all: repeat match goal with
                | H : logs ?x = _ |- context [logs ?x] => rewrite H
                end.
    all: split; [reflexivity|].
    all: repeat match goal with
                | H : logs ?x = _ |- context [logs ?x] => rewrite H
                end.
    all: rewrite <- !app_assoc; reflexivity.
Qed.

Lemma tx_calls_in_order_witness :
  final_sequence (Obj "Transaction built successfully" None
                      (Some (Structured Sample.ts_transaction))) =
    Some Sample.optimized /\
  BuildTs.rpc Sample.options = Some Sample.endpoint /\
  BuildTs.account Sample.options = Some Sample.payer /\
  BuildTs.instructions Sample.options = Some 0%nat /\
  default true (BuildTs.compute Sample.options) = true /\
  default true (BuildTs.fees Sample.options) = true /\
  BuildTs.tx Sample.quiet Sample.options Sample.world =
    (Returned (Obj "Transaction built successfully" None
                   (Some (Structured Sample.ts_transaction))),
     snd (BuildTs.tx Sample.quiet Sample.options Sample.world)) /\
  exists blockhash fee budget,
    Sample.optimized =
      SetComputeUnitPrice fee :: budget :: heap Sample.world 0%nat /\
    heap (snd (BuildTs.tx Sample.quiet Sample.options Sample.world)) =
      heap Sample.world /\
    calls (snd (BuildTs.tx Sample.quiet Sample.options Sample.world)) =
      (calls Sample.world ++
       [GetLatestBlockhash Sample.endpoint;
        SimulateTransaction Sample.endpoint
          (compile Sample.payer blockhash
             (SetComputeUnitLimit (Units 1400000) :: heap Sample.world 0%nat)
             (TableList (default [] (BuildTs.table Sample.options))));
        GetPriorityFeeEstimate (Sample.endpoint ++ "/")
          (Serialized
             (compile Sample.payer blockhash
                (budget :: heap Sample.world 0%nat)
                (TableList (default [] (BuildTs.table Sample.options)))))
          (default "Medium" (BuildTs.priority Sample.options))])%list.
Proof.
  do 6 (split; [reflexivity|]). split; [vm_compute; reflexivity|].
  apply (proj1 (tx_calls_in_order Sample.quiet Sample.world
                  (snd (BuildTs.tx Sample.quiet Sample.options Sample.world))
                  (Obj "Transaction built successfully" None
                       (Some (Structured Sample.ts_transaction)))
                  Sample.endpoint Sample.payer 0%nat Sample.optimized eq_refl)
           Sample.options);
    vm_compute; reflexivity.
Defined.









(** X17: build.js never asks the fee oracle for the level "Extreme": whatever
    the request and the network, if the log held no such call before [tx],
    it holds none after. *)
Theorem js_tx_never_asks_extreme (net : Network) (d : BuildJs.TxData)
    (w : World) :
  existsb asks_extreme (calls w) = false ->
  existsb asks_extreme (calls (snd (BuildJs.tx net d w))) = false.
Proof.
  intros H. unfold_async. branches.
  all: rewrite ?existsb_app; simpl; rewrite ?H; simpl.
  all: try reflexivity.
  all: rewrite ?orb_false_r; try reflexivity.
  all: assumption.
Qed.

Lemma js_tx_never_asks_extreme_witness :
  existsb asks_extreme (calls Sample.world) = false /\
  existsb asks_extreme
    (calls (snd (BuildJs.tx Sample.quiet Scenario.js_extreme Sample.world)))
  = false.
Proof.
  split; [reflexivity|].
  apply (js_tx_never_asks_extreme Sample.quiet Scenario.js_extreme
           Sample.world eq_refl).
Defined.

(** X18: the base64 text that [serialize] with [encode] yields encodes exactly
    the bytes that [serialize] alone yields for the same request, world and
    network.  In build.ts and in build.js. *)
Theorem tx_base64_of_serialized_bytes (net : Network) (w w' : World)
    (bytes : Uint8Array) :
  (forall o,
     BuildTs.tx net (ts_with_output true false o) w =
       (Returned (Obj "Success" None (Some (Raw bytes))), w') ->
     BuildTs.tx net (ts_with_output true true o) w =
       (Returned (Obj "Success" None (Some (Encoded (Base64Of bytes)))), w')) /\
  (forall d,
     BuildJs.tx net (js_with_output true false d) w =
       (Returned (BareBytes bytes), w') ->
     BuildJs.tx net (js_with_output true true d) w =
       (Returned (BareText (Base64Of bytes)), w')).
Proof.
  split.
  - intros o H. unfold_async. simpl in *. branches.
    all: try reflexivity; try discriminate.
  - intros d H. unfold_async. simpl in *. branches.
    all: try reflexivity; try discriminate.
Qed.

Lemma tx_base64_of_serialized_bytes_witness :
  (BuildTs.tx Sample.quiet (ts_with_output true false Sample.options)
     Sample.world =
     (Returned (Obj "Success" None
                    (Some (Raw (Serialized Sample.ts_transaction)))),
      snd (BuildTs.tx Sample.quiet Sample.options Sample.world)) /\
   BuildTs.tx Sample.quiet (ts_with_output true true Sample.options)
     Sample.world =
     (Returned (Obj "Success" None
                    (Some (Encoded
                             (Base64Of (Serialized Sample.ts_transaction))))),
      snd (BuildTs.tx Sample.quiet Sample.options Sample.world))) /\
  (BuildJs.tx Sample.quiet (js_with_output true false Sample.data)
     Sample.world =
     (Returned (BareBytes (Serialized Sample.js_transaction)),
      snd (BuildJs.tx Sample.quiet Sample.data Sample.world)) /\
   BuildJs.tx Sample.quiet (js_with_output true true Sample.data)
     Sample.world =
     (Returned (BareText (Base64Of (Serialized Sample.js_transaction))),
      snd (BuildJs.tx Sample.quiet Sample.data Sample.world))).
Proof.
  split; (split; [vm_compute; reflexivity|]).
  - apply (proj1 (tx_base64_of_serialized_bytes Sample.quiet Sample.world
                    (snd (BuildTs.tx Sample.quiet Sample.options Sample.world))
                    (Serialized Sample.ts_transaction)) Sample.options).
    vm_compute; reflexivity.
  - apply (proj2 (tx_base64_of_serialized_bytes Sample.quiet Sample.world
                    (snd (BuildJs.tx Sample.quiet Sample.data Sample.world))
                    (Serialized Sample.js_transaction)) Sample.data).
    vm_compute; reflexivity.
Defined.



(** X20: build.js changes no array but the one passed as [instructions],
    whatever the outcome of the call. *)
Theorem js_tx_touches_one_array (net : Network) (d : BuildJs.TxData)
    (w : World) (ref other : ArrayRef) :
  BuildJs.instructions d = Some ref ->
  other <> ref ->
  heap (snd (BuildJs.tx net d w)) other = heap w other.
Proof.
  intros Href Hother. apply Nat.eqb_neq in Hother.
  unfold BuildJs.tx. rewrite Href. unfold_async.
  branches.
  all: simpl; rewrite ?Hother; reflexivity.
Qed.

Lemma js_tx_touches_one_array_witness :
  BuildJs.instructions Sample.data = Some 0%nat /\
  1%nat <> 0%nat /\
  heap (snd (BuildJs.tx Sample.quiet Sample.data Sample.world)) 1%nat =
    heap Sample.world 1%nat.
Proof.
  assert (Hne : 1%nat <> 0%nat) by discriminate.
  split; [reflexivity|]. split; [exact Hne|].
  apply (js_tx_touches_one_array Sample.quiet Sample.data Sample.world
           0%nat 1%nat eq_refl Hne).
Defined.

(** X21: whatever the request, the network and the outcome, one call of [tx]
    issues at most three network calls, among them at most one simulation
    and at most one fee query.  In build.ts and in build.js. *)
Theorem tx_never_retries (net : Network) (w : World) :
  (forall o,
     exists issued,
       calls (snd (BuildTs.tx net o w)) = (calls w ++ issued)%list /\
       (List.length issued <= 3)%nat /\
       (List.length (filter is_simulation issued) <= 1)%nat /\
       (List.length (filter is_fee_call issued) <= 1)%nat) /\
  (forall d,
     exists issued,
       calls (snd (BuildJs.tx net d w)) = (calls w ++ issued)%list /\
       (List.length issued <= 3)%nat /\
       (List.length (filter is_simulation issued) <= 1)%nat /\
       (List.length (filter is_fee_call issued) <= 1)%nat).
Proof.
  split.
  - intros o. unfold_async. branches.
    all: rewrite <- ?app_assoc; simpl.
    all: first [ exists []; rewrite app_nil_r; simpl; repeat split; lia
               | eexists; split; [reflexivity|]; simpl; repeat split; lia ].
  - intros d. unfold_async. branches.
    all: rewrite <- ?app_assoc; simpl.
    all: first [ exists []; rewrite app_nil_r; simpl; repeat split; lia
               | eexists; split; [reflexivity|]; simpl; repeat split; lia ].
Qed.


(** X22: build.ts: a second call on the same request, answered as the first
    was, has the same outcome (result or error), issues the same calls
    again and leaves the heap as it was before the first. *)
Theorem ts_tx_repeats_itself (net : Network) (o : BuildTs.TxOptions)
    (w : World) :
  exists issued,
    calls (snd (BuildTs.tx net o w)) = (calls w ++ issued)%list /\
    BuildTs.tx net o (snd (BuildTs.tx net o w)) =
      (fst (BuildTs.tx net o w),
       {| heap := heap w;
          calls := ((calls w ++ issued) ++ issued)%list |}).
Proof.
  pose proof (ts_tx_read_only net o) as H.
  exists (calls (snd (BuildTs.tx net o (fresh (heap w))))).
  rewrite (H w). cbn [fst snd calls]. split; [reflexivity|].
  rewrite H. reflexivity.
Qed.

(** ** Fee and compute estimation on unusual answers *)

Lemma decimal_prefix_stops (d : Decimal.uint) (rest : string) :
  Js.decimal_prefix (NilEmpty.string_of_uint d ++ String "."%char rest) = d.
Proof. induction d; simpl; congruence. Qed.

Lemma parse_decimal_stops (negative : bool) (p : positive) (rest : string) :
  Js.parse_decimal negative
    (NilEmpty.string_of_uint (Pos.to_uint p) ++ String "."%char rest) =
  Js.signed negative (N.pos p).
Proof.
  unfold Js.parse_decimal. rewrite decimal_prefix_stops.
  pose proof (Unsigned.to_uint_nonnil p) as Hnil.
  pose proof (Unsigned.of_to p) as Hof.
  destruct (Pos.to_uint p); try congruence;
    unfold N.of_uint; rewrite Hof; reflexivity.
Qed.

Lemma trim_start_stops (d : Decimal.uint) (rest : string) :
  Js.trim_start (NilEmpty.string_of_uint d ++ String "."%char rest) =
  NilEmpty.string_of_uint d ++ String "."%char rest.
Proof. destruct d; reflexivity. Qed.

Lemma strip_sign_stops (d : Decimal.uint) (rest : string) :
  Js.strip_sign (NilEmpty.string_of_uint d ++ String "."%char rest) =
  (false, NilEmpty.string_of_uint d ++ String "."%char rest).
Proof. destruct d; reflexivity. Qed.

Lemma parse_any_radix_stops (negative : bool) (d : Decimal.uint)
    (rest : string) :
  Js.parse_any_radix negative
    (NilEmpty.string_of_uint d ++ String "."%char rest) =
  Js.parse_decimal negative
    (NilEmpty.string_of_uint d ++ String "."%char rest).
Proof.
  destruct d as [|d|d|d|d|d|d|d|d|d|d]; try reflexivity.
  destruct d; reflexivity.
Qed.

Lemma parseInt_with_fraction (z : Z) (rest : string) :
  Js.parseInt10 (Js.JsString (with_fraction z rest)) = Js.Int z /\
  Js.parseInt (Js.JsString (with_fraction z rest)) = Js.Int z.
Proof.
  unfold Js.parseInt10, Js.parseInt, Js.ToString, with_fraction,
    Js.Number_toString.
  destruct z as [|p|p]; [split; reflexivity| |];
    simpl Z.to_int; unfold NilZero.string_of_int; rewrite string_of_positive.
  - rewrite trim_start_stops, strip_sign_stops, parse_any_radix_stops.
    split; apply parse_decimal_stops.
  - simpl. rewrite parse_any_radix_stops.
    split; apply parse_decimal_stops.
Qed.

(** X23: an estimate delivered as decimal text with a fractional part is cut
    at the dot: for the text of an integer [z], a dot and anything after it,
    both variants return [max(z, 10000)].  ([z] ranges over the integers
    binary64 holds exactly.) *)
Theorem FeeEstimate_truncates_fraction (net : Network)
    (cluster payer level blockhash : string) (ixs : list Instruction)
    (tables : Tables) (w : World) (z : Z) (rest : string) :
  (Z.abs z <= 2 ^ 53)%Z ->
  (forall url t l,
     fetch net url t l = Body (Some (Js.JsString (with_fraction z rest)))) ->
  fst (BuildTs.FeeEstimate net cluster payer level ixs blockhash tables w) =
    Returned (Js.Int (Z.max z 10000)) /\
  fst (BuildJs.FeeEstimate net cluster payer level ixs blockhash tables w) =
    Returned (Js.Int (Z.max z 10000)).
Proof.
  intros _ Hfetch.
  pose proof (FeeEstimate_failures net cluster payer level blockhash ixs
                tables w _ Hfetch) as [Hts Hjs].
  cbv beta iota in Hts, Hjs.
  destruct (parseInt_with_fraction z rest) as [H10 Hany].
  rewrite H10 in Hts. rewrite Hany in Hjs. split; assumption.
Qed.

Lemma FeeEstimate_truncates_fraction_witness :
  (Z.abs 12345 <= 2 ^ 53)%Z /\
  (forall url t l,
     fetch Scenario.fractional url t l =
     Body (Some (Js.JsString (with_fraction 12345 "678")))) /\
  fst (BuildTs.FeeEstimate Scenario.fractional Sample.endpoint Sample.payer
         "Medium" Sample.budgeted Sample.blockhash (TableList [])
         Sample.world) =
    Returned (Js.Int 12345) /\
  fst (BuildJs.FeeEstimate Scenario.fractional Sample.endpoint Sample.payer
         "Medium" Sample.budgeted Sample.blockhash (TableList [])
         Sample.world) =
    Returned (Js.Int 12345).
Proof.
  assert (Hsafe : (Z.abs 12345 <= 2 ^ 53)%Z) by (vm_compute; discriminate).
  split; [exact Hsafe|]. split; [intros url t l; reflexivity|].
  apply (FeeEstimate_truncates_fraction Scenario.fractional Sample.endpoint
           Sample.payer "Medium" Sample.blockhash Sample.budgeted
           (TableList []) Sample.world 12345 "678" Hsafe
           (fun url t l => eq_refl)).
Defined.

(** X24: whatever the oracle answers, an integer that [FeeEstimate] returns
    is at least 10000.  In build.ts and in build.js. *)
Theorem FeeEstimate_never_below_floor (net : Network)
    (cluster payer level blockhash : string) (ixs : list Instruction)
    (tables : Tables) (w : World) (z : Z) :
  (fst (BuildTs.FeeEstimate net cluster payer level ixs blockhash tables w) =
     Returned (Js.Int z) -> 10000 <= z) /\
  (fst (BuildJs.FeeEstimate net cluster payer level ixs blockhash tables w) =
     Returned (Js.Int z) -> 10000 <= z).
Proof.
  unfold BuildTs.FeeEstimate, BuildJs.FeeEstimate, try_catch, bind, request,
    throw, ret.
  split; intros H; simpl in H;
    destruct (fetch net _ _ _) as [e|e|[v|]]; simpl in H; try discriminate H.
  - destruct (Js.parseInt10 v); simpl in H; [discriminate H|].
    injection H as <-. lia.
  - destruct (Js.parseInt v); simpl in H; [discriminate H|].
    injection H as <-. lia.
Qed.

Lemma FeeEstimate_never_below_floor_witness :
  fst (BuildTs.FeeEstimate Sample.quiet Sample.endpoint Sample.payer "Medium"
         Sample.budgeted Sample.blockhash (TableList []) Sample.world) =
    Returned (Js.Int 10000) /\
  10000 <= 10000.
Proof.
  split; [reflexivity|].
  apply (proj1 (FeeEstimate_never_below_floor Sample.quiet Sample.endpoint
                  Sample.payer "Medium" Sample.blockhash Sample.budgeted
                  (TableList []) Sample.world 10000) eq_refl).
Defined.

(** X25: when the fee query fails (rejected fetch, unparsable body or body
    without [result]), build.ts throws "Failed to estimate fee" whatever the
    cause, and build.js throws the cause itself (a TypeError for the missing
    [result]); both have issued exactly one oracle call, build.ts at
    [cluster + "/"] and build.js at [cluster]. *)
Theorem FeeEstimate_surfaces_failures (net : Network)
    (cluster payer level blockhash : string) (ixs : list Instruction)
    (tables : Tables) (w : World) (reply : FetchReply) :
  (forall url t l, fetch net url t l = reply) ->
  (forall v, reply <> Body (Some v)) ->
  BuildTs.FeeEstimate net cluster payer level ixs blockhash tables w =
    (Thrown (Error "Failed to estimate fee"),
     {| heap := heap w;
        calls := calls w ++
          [GetPriorityFeeEstimate (cluster ++ "/")
             (Serialized (compile payer blockhash ixs tables)) level] |}) /\
  exists e,
    BuildJs.FeeEstimate net cluster payer level ixs blockhash tables w =
      (Thrown e,
       {| heap := heap w;
          calls := calls w ++
            [GetPriorityFeeEstimate cluster
               (Serialized (compile payer blockhash ixs tables)) level] |}) /\
    match reply with
    | FetchRejects e' | JsonRejects e' => e = e'
    | Body _ => e = TypeError "data.result is undefined"
    end.
Proof.
  intros Hfetch Hfail.
  unfold BuildTs.FeeEstimate, BuildJs.FeeEstimate, try_catch, bind, request,
    throw, ret.
  rewrite !Hfetch.
  destruct reply as [e|e|[v|]]; simpl;
    try (split; [reflexivity|eexists; split; reflexivity]).
  exfalso. apply (Hfail v). reflexivity.
Qed.

Lemma FeeEstimate_surfaces_failures_witness :
  (forall url t l,
     fetch Scenario.oracle_down url t l = FetchRejects Scenario.down) /\
  (forall v, FetchRejects Scenario.down <> Body (Some v)) /\
  BuildTs.FeeEstimate Scenario.oracle_down Sample.endpoint Sample.payer
    "Medium" Sample.budgeted Sample.blockhash (TableList []) Sample.world =
    (Thrown (Error "Failed to estimate fee"),
     {| heap := heap Sample.world;
        calls := calls Sample.world ++
          [GetPriorityFeeEstimate (Sample.endpoint ++ "/")
             (Serialized (compile Sample.payer Sample.blockhash
                            Sample.budgeted (TableList [])))
             "Medium"] |}).
Proof.
  assert (Hfail : forall v, FetchRejects Scenario.down <> Body (Some v))
    by (intros v; discriminate).
  split; [intros url t l; reflexivity|]. split; [exact Hfail|].
  apply (proj1 (FeeEstimate_surfaces_failures Scenario.oracle_down
                  Sample.endpoint Sample.payer "Medium" Sample.blockhash
                  Sample.budgeted (TableList []) Sample.world
                  (FetchRejects Scenario.down) (fun url t l => eq_refl)
                  Hfail)).
Defined.





Lemma mul_nan (y : float) : PrimFloat.mul PrimFloat.nan y = PrimFloat.nan.
Proof.
  rewrite <- (SF2Prim_Prim2SF (PrimFloat.mul PrimFloat.nan y)).
  rewrite mul_spec. reflexivity.
Qed.

(** X27: when a successful simulation reports no [unitsConsumed],
    [ComputeLimit] returns NaN units for every tolerance, in both variants;
    it neither throws nor reports a failure. *)
Theorem ComputeLimit_without_consumed_units (net : Network)
    (cluster payer blockhash : string) (ixs : list Instruction)
    (tolerance : float) (tables : Tables) (w : World) (sv : SimulationValue) :
  (forall c t, simulateTransaction net c t = Returned sv) ->
  err sv = None ->
  unitsConsumed sv = None ->
  fst (BuildTs.ComputeLimit net cluster payer ixs tolerance blockhash tables w)
    = Returned (Units PrimFloat.nan) /\
  fst (BuildJs.ComputeLimit net cluster payer ixs tolerance blockhash tables w)
    = Returned (Units PrimFloat.nan).
Proof.
  intros Hsim Herr Hunits.
  unfold BuildTs.ComputeLimit, BuildJs.ComputeLimit, bind, request, ret.
  rewrite !Hsim. simpl. rewrite Herr, Hunits. simpl.
  rewrite mul_nan. split; reflexivity.
Qed.

Lemma ComputeLimit_without_consumed_units_witness :
  (forall c t,
     simulateTransaction (Sample.network Scenario.unmetered Js.JsUndefined)
       c t = Returned Scenario.unmetered) /\
  err Scenario.unmetered = None /\
  unitsConsumed Scenario.unmetered = None /\
  fst (BuildTs.ComputeLimit (Sample.network Scenario.unmetered Js.JsUndefined)
         Sample.endpoint Sample.payer [Sample.transfer] 1.1
         Sample.blockhash (TableList []) Sample.world) =
    Returned (Units PrimFloat.nan) /\
  fst (BuildJs.ComputeLimit (Sample.network Scenario.unmetered Js.JsUndefined)
         Sample.endpoint Sample.payer [Sample.transfer] 1.1
         Sample.blockhash (TableList []) Sample.world) =
    Returned (Units PrimFloat.nan).
Proof.
  split; [intros c t; reflexivity|]. do 2 (split; [reflexivity|]).
  apply (ComputeLimit_without_consumed_units
           (Sample.network Scenario.unmetered Js.JsUndefined)
           Sample.endpoint Sample.payer Sample.blockhash [Sample.transfer]
           1.1 (TableList []) Sample.world Scenario.unmetered
           (fun c t => eq_refl) eq_refl eq_refl).
Defined.
